(** * Komet-ML: seismic-impact prediction service and earthquake data acquisition

    A shallow embedding of the Python sources

    - [app/models/data/get_data.py]  (event counter, chunk planner, acquisition driver),
    - [app/models/data/join_data.py] (feature projection, file joiner),
    - [app/models/test.py]           (feature synthesis, inference, nearest example),
    - [app/routers/predict.py]       (the HTTP endpoint),

    followed by the properties established about them.

    Conventions of the embedding.

    - A Python call either returns, raises, or (for the two [while] loops, which
      are run with fuel) exhausts its fuel: type [outcome].  The loops are proved
      never to exhaust the fuel they are given.
    - Python floats are modelled by exact rationals ([Q]); NaN, where pandas
      produces it, is the separate value [VNaN].
    - [datetime] values are the midnight instants the driver builds
      ([datetime(y, 1, 1)], [datetime(y, 12, 31)], plus or minus whole days); they
      are represented by their proleptic Gregorian day ordinal in [Z], assumed to
      stay inside [datetime]'s range.
    - Library functions whose results the repository only consumes
      ([int(str)], [str.strip], [json.loads], [math.log10], [float(str)]) are the
      fields of the interface [PyLib]; the pickled scaler and clustering model are
      records of functions.
    - Clock and random generator are explicit inputs ([Env]); [print] is kept only
      where a property speaks of what is logged (the joiner). *)

From Stdlib Require Import ZArith QArith Qround Lqa Lia List String Ascii Bool.
From stdpp Require Import base option list gmap strings.

Set Warnings "-register-all".
Local Open Scope Z_scope.

(** ** Python values, exceptions and outcomes *)

Module Py.

Inductive exn : Type :=
| ValueError (msg : string)
| JSONDecodeError (msg : string)
| TypeError (msg : string)
| KeyError (key : string)
| IndexError (msg : string)
| AttributeError (msg : string)
| RuntimeError (msg : string)
| ClientResponseError (status : Z)
| HTTPException (status_code : Z) (detail : string)
| UnicodeDecodeError (msg : string).

(** [str(e)]; [str] of a [KeyError] is the [repr] of its key. *)
Definition str_of_exn (e : exn) : string :=
  match e with
  | ValueError m | JSONDecodeError m | TypeError m | IndexError m
  | AttributeError m | RuntimeError m | UnicodeDecodeError m => m
  | KeyError k => "'" +:+ k +:+ "'"
  | ClientResponseError s => "response status error"
  | HTTPException _ d => d
  end.

Inductive outcome (A : Type) : Type :=
| Returns (a : A)
| Raises (e : exn)
| OutOfFuel.
Arguments Returns {A} a.
Arguments Raises {A} e.
Arguments OutOfFuel {A}.

#[global] Instance outcome_ret : MRet outcome := @Returns.
#[global] Instance outcome_bind : MBind outcome := fun A B f m =>
  match m with
  | Returns a => f a
  | Raises e => Raises e
  | OutOfFuel => OutOfFuel
  end.

(** A call to something outside the repository (the remote service, a pickled
    model) raises or returns. *)
Definition call {A} (answer : exn + A) : outcome A :=
  match answer with
  | inl e => Raises e
  | inr a => Returns a
  end.

(** [try: m except <handled> as e: h e] *)
Definition try_except {A} (m : outcome A) (handled : exn -> bool)
    (h : exn -> outcome A) : outcome A :=
  match m with
  | Raises e => if handled e then h e else Raises e
  | other => other
  end.

(** The values JSON decoding and the feature dictionaries hold.  A [VDict] lists
    its items in insertion order. *)
Inductive value : Type :=
| VNone
| VBool (b : bool)
| VInt (n : Z)
| VFloat (q : Q)
| VNaN
| VStr (s : string)
| VList (l : list value)
| VDict (kvs : list (string * value)).

Definition type_name (v : value) : string :=
  match v with
  | VNone => "NoneType"
  | VBool _ => "bool"
  | VInt _ => "int"
  | VFloat _ | VNaN => "float"
  | VStr _ => "str"
  | VList _ => "list"
  | VDict _ => "dict"
  end.

(** *** Insertion-ordered dictionaries with string keys *)

Fixpoint dict_get {V} (k : string) (d : list (string * V)) : option V :=
  match d with
  | [] => None
  | (k', v) :: rest => if String.eqb k k' then Some v else dict_get k rest
  end.

(** [d[k] = v]: an existing key keeps its position, a new one goes last. *)
Fixpoint dict_set {V} (k : string) (v : V) (d : list (string * V)) : list (string * V) :=
  match d with
  | [] => [(k, v)]
  | (k', v') :: rest =>
      if String.eqb k k' then (k', v) :: rest else (k', v') :: dict_set k v rest
  end.

Definition dict_keys {V} (d : list (string * V)) : list string := map fst d.

Definition str_in (k : string) (l : list string) : bool :=
  existsb (String.eqb k) l.

(** [needle in haystack] on strings. *)
Fixpoint substring_of (needle hay : string) : bool :=
  String.prefix needle hay ||
  match hay with
  | EmptyString => false
  | String _ rest => substring_of needle rest
  end.

(** *** The object protocol, as far as the sources use it *)

(** [k in v] for a string [k]. *)
Definition contains (k : string) (v : value) : outcome bool :=
  match v with
  | VDict kvs => Returns (str_in k (dict_keys kvs))
  | VList l =>
      Returns (existsb (fun x => match x with VStr s => String.eqb k s | _ => false end) l)
  | VStr s => Returns (substring_of k s)
  | _ => Raises (TypeError ("argument of type '" +:+ type_name v +:+ "' is not iterable"))
  end.

(** [v[k]] for a string [k]. *)
Definition getitem (v : value) (k : string) : outcome value :=
  match v with
  | VDict kvs =>
      match dict_get k kvs with
      | Some x => Returns x
      | None => Raises (KeyError k)
      end
  | VList _ => Raises (TypeError "list indices must be integers or slices, not str")
  | VStr _ => Raises (TypeError "string indices must be integers, not 'str'")
  | _ => Raises (TypeError ("'" +:+ type_name v +:+ "' object is not subscriptable"))
  end.

(** [v.items()] *)
Definition items (v : value) : outcome (list (string * value)) :=
  match v with
  | VDict kvs => Returns kvs
  | _ => Raises (AttributeError ("'" +:+ type_name v +:+ "' object has no attribute 'items'"))
  end.

(** [bool(v)] *)
Definition truthy (v : value) : bool :=
  match v with
  | VNone => false
  | VBool b => b
  | VInt n => negb (n =? 0)
  | VFloat q => negb (Qeq_bool q 0)
  | VNaN => true
  | VStr s => negb (String.eqb s "")
  | VList l => match l with [] => false | _ => true end
  | VDict kvs => match kvs with [] => false | _ => true end
  end.

(** [len(v)] *)
Definition len (v : value) : outcome Z :=
  match v with
  | VStr s => Returns (Z.of_nat (String.length s))
  | VList l => Returns (Z.of_nat (List.length l))
  | VDict kvs => Returns (Z.of_nat (List.length kvs))
  | _ => Raises (TypeError ("object of type '" +:+ type_name v +:+ "' has no len()"))
  end.

(** The line feed of ['\n']. *)
Definition LF : string := String "010"%char EmptyString.

(** [int(x)] on a float truncates toward zero. *)
Definition Qtrunc (q : Q) : Z :=
  if Qle_bool 0 q then Qfloor q else Qceiling q.

(** The library functions whose results the sources consume. [None] stands for
    the function's [ValueError] ([JSONDecodeError] for [json_loads]). *)
Class PyLib : Type := {
  str_strip : string -> string;
  int_of_str : string -> option Z;
  float_of_str : string -> option Q;
  json_loads : string -> option value;
  log10 : Q -> Q
}.

(** ** Loops *)

Inductive loop_step (S R : Type) : Type :=
| Continue (s : S)
| Break (r : R).
Arguments Continue {S R} s.
Arguments Break {S R} r.

(** [while_loop fuel body s]: run [body] from [s] until it breaks. *)
Fixpoint while_loop {S R} (fuel : nat) (body : S -> outcome (loop_step S R)) (s : S)
    : outcome R :=
  match fuel with
  | O => OutOfFuel
  | Datatypes.S fuel' =>
      match body s with
      | Returns (Continue s') => while_loop fuel' body s'
      | Returns (Break r) => Returns r
      | Raises e => Raises e
      | OutOfFuel => OutOfFuel
      end
  end.

End Py.
Export Py.

(** ** app/models/data/get_data.py *)

Module GetData.

Definition MAX_EVENTS : Z := 20000.
Definition TARGET_EVENTS : Z := 15000.

(** [SAMPLES = float('inf')]: a sample target is an integer or infinite. *)
Inductive limit : Type :=
| Finite (n : Z)
| Infinite.
Definition SAMPLES : limit := Infinite.

(** [total < target] and [total >= target] *)
Definition below (total : Z) (target : limit) : bool :=
  match target with
  | Finite n => total <? n
  | Infinite => true
  end.
Definition reached (total : Z) (target : limit) : bool := negb (below total target).

(** *** get_event_count: the response body *)

Record response : Type := { status : Z; text : string }.

(** [response.raise_for_status()] *)
Definition raise_for_status (r : response) : outcome unit :=
  if 400 <=? status r then Raises (ClientResponseError (status r)) else Returns tt.

(** The function from the point where the request has been answered. *)
Definition get_event_count `{PyLib} (resp : response) : outcome value :=
  _ ← raise_for_status resp;
  match int_of_str (str_strip (text resp)) with
  | Some count => Returns (VInt count)
  | None =>
      (* except ValueError: *)
      try_except
        (match json_loads (text resp) with
         | None => Raises (JSONDecodeError "Expecting value")
         | Some error_data =>
             has ← contains "count" error_data;
             if has : bool then getitem error_data "count"
             else Raises (ValueError "Count not found in error response")
         end)
        (fun e => match e with JSONDecodeError _ => true | _ => false end)
        (fun _ => Raises (ValueError "Invalid response from count API"))
  end.

(** *** Dates *)

Definition date : Type := Z.

(** Days before January 1st of year [y] (proleptic Gregorian calendar). *)
Definition days_before_year (y : Z) : Z :=
  let y' := y - 1 in y' * 365 + y' / 4 - y' / 100 + y' / 400.

(** [datetime(y, 1, 1)] and [datetime(y, 12, 31)] *)
Definition jan_1 (y : Z) : date := days_before_year y + 1.
Definition dec_31 (y : Z) : date := days_before_year (y + 1).

(** *** The remote catalogue, seen through the declared signatures

    [get_event_count(session, start, end) -> int] and the query of
    [download_data]; both may raise. *)
Record remote : Type := {
  count_of : date -> date -> exn + Z;
  query_of : date -> date -> exn + string
}.

(** *** find_optimal_end_date *)

Record search : Type := { left : date; right : date; best_end : date }.

(** [count >= TARGET_EVENTS * 0.8]: the float product is 12000.0, so on an
    integer count the test is [12000 <= count]. *)
Definition meets_target (count : Z) : bool := TARGET_EVENTS * 8 <=? count * 10.

(** One pass of [while left <= right: ...] *)
Definition search_body (r : remote) (start_date : date) (s : search)
    : outcome (loop_step search date) :=
  if left s <=? right s then
    let days_diff := right s - left s in
    let mid := left s + days_diff / 2 in
    if mid <=? start_date then Returns (Break (best_end s))
    else
      count ← call (count_of r start_date mid);
      if count <=? MAX_EVENTS then
        if meets_target count then Returns (Break mid)
        else Returns (Continue {| left := mid + 1; right := right s; best_end := mid |})
      else Returns (Continue {| left := left s; right := mid - 1; best_end := best_end s |})
  else Returns (Break (best_end s)).

Definition midpoint (s : search) : date := left s + (right s - left s) / 2.

(** The six ways a pass can go. *)
Inductive pass (r : remote) (start_date : date) (s : search)
    : outcome (loop_step search date) -> Prop :=
| pass_exit :
    right s < left s ->
    pass r start_date s (Returns (Break (best_end s)))
| pass_degenerate :
    left s <= right s -> midpoint s <= start_date ->
    pass r start_date s (Returns (Break (best_end s)))
| pass_raise e :
    left s <= right s -> start_date < midpoint s ->
    count_of r start_date (midpoint s) = inl e ->
    pass r start_date s (Raises e)
| pass_good count :
    left s <= right s -> start_date < midpoint s ->
    count_of r start_date (midpoint s) = inr count ->
    count <= MAX_EVENTS -> 12000 <= count ->
    pass r start_date s (Returns (Break (midpoint s)))
| pass_grow count :
    left s <= right s -> start_date < midpoint s ->
    count_of r start_date (midpoint s) = inr count ->
    count <= MAX_EVENTS -> count < 12000 ->
    pass r start_date s
      (Returns (Continue {| left := midpoint s + 1; right := right s;
                            best_end := midpoint s |}))
| pass_shrink count :
    left s <= right s -> start_date < midpoint s ->
    count_of r start_date (midpoint s) = inr count ->
    MAX_EVENTS < count ->
    pass r start_date s
      (Returns (Continue {| left := left s; right := midpoint s - 1;
                            best_end := best_end s |})).

(** The window [right - left + 1] shrinks on every pass. *)
Definition window (s : search) : nat := Z.to_nat (right s - left s + 1).

Definition find_optimal_end_date (r : remote) (start_date max_end_date : date)
    : outcome date :=
  let s0 := {| left := start_date; right := max_end_date; best_end := start_date |} in
  while_loop (S (window s0)) (search_body r start_date) s0.

(** *** download_data: one file per chunk, keyed by its date boundaries *)

Definition store : Type := list (date * date * string).

Definition download_data (r : remote) (start_date end_date : date) (expected_count : Z)
    (files : store) : outcome (Z * store) :=
  body ← call (query_of r start_date end_date);
  Returns (expected_count, files ++ [(start_date, end_date, body)]).

(** *** download_data_in_chunks *)

Record driver : Type := {
  current_date : date;
  chunk_number : Z;
  total_samples_collected : Z;
  raw_data : store
}.

Section Driver.
(** The module constant [SAMPLES], kept as a parameter of the loop. *)
Variable samples : limit.
Variable r : remote.
Variable final_date : date.

(** [while current_date < final_date and total_samples_collected < SAMPLES: ...] *)
Definition chunk_body (st : driver) : outcome (loop_step driver driver) :=
  if (current_date st <? final_date) && below (total_samples_collected st) samples then
    optimal_end ← find_optimal_end_date r (current_date st) final_date;
    chunk_count ← call (count_of r (current_date st) optimal_end);
    '(actual_count, files) ←
      download_data r (current_date st) optimal_end chunk_count (raw_data st);
    let st' := {| current_date := optimal_end + 1;
                  chunk_number := chunk_number st + 1;
                  total_samples_collected := total_samples_collected st + actual_count;
                  raw_data := files |} in
    if reached (total_samples_collected st') samples then Returns (Break st')
    else Returns (Continue st')
  else Returns (Break st).

Definition remaining (st : driver) : nat := Z.to_nat (final_date - current_date st).

Definition download_loop (st : driver) : outcome driver :=
  while_loop (S (remaining st)) chunk_body st.
End Driver.

Definition download_data_in_chunks (samples : limit) (r : remote) (start_year end_year : Z)
    : outcome driver :=
  download_loop samples r (dec_31 end_year)
    {| current_date := jan_1 start_year; chunk_number := 1;
       total_samples_collected := 0; raw_data := [] |}.

Definition main (r : remote) : outcome driver := download_data_in_chunks SAMPLES r 1900 2025.

(** The synthetic counter [count(start, end) = (end - start).days * K]. *)
Definition synthetic (K : Z) : remote :=
  {| count_of := fun s e => inr ((e - s) * K);
     query_of := fun _ _ => inr "" |}.

End GetData.

(** ** app/models/data/join_data.py *)

Module JoinData.

Definition avoid_keys : list string :=
  ["id"; "url"; "detail"; "code"; "ids"; "sources"; "types"; "title"; "status"; "type"].

(** [for key, value in its: if key not in avoid_keys: parsed_feature[key] = value] *)
Definition copy_items (its parsed_feature : list (string * value)) : list (string * value) :=
  fold_left
    (fun acc kv => if str_in (fst kv) avoid_keys then acc else dict_set (fst kv) (snd kv) acc)
    its parsed_feature.

Definition copy_section (section : string) (feature : value)
    (parsed_feature : list (string * value)) : outcome (list (string * value)) :=
  present ← contains section feature;
  if present : bool then
    sub ← getitem feature section;
    its ← items sub;
    Returns (copy_items its parsed_feature)
  else Returns parsed_feature.

Definition parse_feature (feature : value) : outcome (list (string * value)) :=
  let parsed_feature := [] in
  parsed_feature ← copy_section "properties" feature parsed_feature;
  parsed_feature ← copy_section "geometry" feature parsed_feature;
  Returns parsed_feature.

(** What is written to the output file: [out_f.write(s)] or
    [json.dump(v, out_f, separators=(',', ':'))]. *)
Inductive chunk : Type :=
| Text (s : string)
| Json (v : value).

(** What is printed. *)
Inductive event : Type :=
| Found (n : nat)
| Processing (i n : nat) (name : string)
| Added (file_event_count total_events : Z)
| Failed (name : string) (e : exn)
| Joined (total_events : Z).

(** A chunk file: its name and how [open(file, 'r', encoding='utf-8')] followed
    by [json.load(f)] ends on it: with the decoded value, or with the exception
    raised ([JSONDecodeError] for text that is not JSON, [UnicodeDecodeError]
    for bytes that are not UTF-8). *)
Record file : Type := { name : string; content : exn + value }.

Record jstate : Type := {
  out_f : list chunk;
  first_feature : bool;
  total_events : Z;
  printed : list event
}.

(** Statements that write, print and may raise. *)
Definition J (A : Type) : Type := jstate -> outcome A * jstate.

#[global] Instance J_ret : MRet J := fun A a st => (Returns a, st).
#[global] Instance J_bind : MBind J := fun A B f m st =>
  match m st with
  | (Returns a, st') => f a st'
  | (Raises e, st') => (Raises e, st')
  | (OutOfFuel, st') => (OutOfFuel, st')
  end.

Definition lift {A} (m : outcome A) : J A := fun st => (m, st).

Definition write (c : chunk) : J unit := fun st =>
  (Returns tt, {| out_f := out_f st ++ [c]; first_feature := first_feature st;
                  total_events := total_events st; printed := printed st |}).

Definition print (e : event) : J unit := fun st =>
  (Returns tt, {| out_f := out_f st; first_feature := first_feature st;
                  total_events := total_events st; printed := printed st ++ [e] |}).

(** [if not first_feature: out_f.write(',\n') else: first_feature = False] *)
Definition separator : J unit := fun st =>
  if first_feature st then
    (Returns tt, {| out_f := out_f st; first_feature := false;
                    total_events := total_events st; printed := printed st |})
  else write (Text ("," +:+ LF)) st.

(** [total_events += n], then the progress line. *)
Definition count_events (n : Z) : J unit := fun st =>
  print (Added n (total_events st + n))
    {| out_f := out_f st; first_feature := first_feature st;
       total_events := total_events st + n; printed := printed st |}.

Fixpoint for_each {A} (l : list A) (body : A -> J unit) : J unit :=
  match l with
  | [] => mret tt
  | x :: rest => _ ← body x; for_each rest body
  end.

(** The body of [for j, feature in enumerate(features)], up to [json.dump]. *)
Definition emit_feature (feature : value) : J unit :=
  parsed_feature ← lift (parse_feature feature);
  _ ← separator;
  write (Json (VDict parsed_feature)).

(** The loop over [features], with its [features[j] = None]: on a list the
    assignment is harmless; on a dict it adds the key [0], which the iterator
    rejects on its next step; on a string it is refused. *)
Definition emit_features (features : value) : J unit :=
  match features with
  | VList l => for_each l emit_feature
  | VDict ((k, _) :: _) =>
      _ ← emit_feature (VStr k);
      lift (Raises (RuntimeError "dictionary changed size during iteration"))
  | VDict [] => mret tt
  | VStr (String c _) =>
      _ ← emit_feature (VStr (String c ""));
      lift (Raises (TypeError "'str' object does not support item assignment"))
  | VStr EmptyString => mret tt
  | other => lift (Raises (TypeError ("'" +:+ type_name other +:+ "' object is not iterable")))
  end.

(** The body of the [try]. *)
Definition process_file (f : file) : J unit :=
  data ← lift (call (content f));
  present ← lift (contains "features" data);
  if present : bool then
    features ← lift (getitem data "features");
    if truthy features then
      file_event_count ← lift (len features);
      _ ← emit_features features;
      count_events file_event_count
    else mret tt
  else mret tt.

(** [except (json.JSONDecodeError, KeyError) as e: print(...); continue] *)
Definition caught (e : exn) : bool :=
  match e with
  | JSONDecodeError _ | KeyError _ => true
  | _ => false
  end.

Definition try_file (f : file) : J unit := fun st =>
  match process_file f st with
  | (Raises e, st') => if caught e then print (Failed (name f) e) st' else (Raises e, st')
  | other => other
  end.

Fixpoint enumerate_from {A} (i : nat) (l : list A) : list (nat * A) :=
  match l with
  | [] => []
  | x :: rest => (i, x) :: enumerate_from (S i) rest
  end.

(** The closing line, with the running total. *)
Definition report : J unit := fun st => print (Joined (total_events st)) st.

(** The body of [for i, file in enumerate(files)], of [n] files. *)
Definition file_pass (n : nat) (entry : nat * file) : J unit :=
  _ ← print (Processing (S (fst entry)) n (name (snd entry)));
  try_file (snd entry).

(** The statements of [join_data_files], from an open output file. *)
Definition join_body (files : list file) : J unit :=
  _ ← print (Found (length files));
  _ ← write (Text ("[" +:+ LF));
  _ ← for_each (enumerate_from 0 files) (file_pass (length files));
  _ ← write (Text (LF +:+ "]"));
  report.

(** [files] is the result of the [glob]; the result is how the call ends and
    what the output file and the console hold then. *)
Definition join_data_files (files : list file) : outcome unit * jstate :=
  join_body files
    {| out_f := []; first_feature := true; total_events := 0; printed := [] |}.

(** *** The shapes the joiner is specified on *)

(** The items of a feature's [section]: those of the dictionary stored there,
    none when the key is absent. *)
Definition entries (section : string) (fkvs its : list (string * value)) : Prop :=
  dict_get section fkvs = Some (VDict its) \/ (dict_get section fkvs = None /\ its = []).

Definition section_ok (section : string) (fkvs : list (string * value)) : bool :=
  match dict_get section fkvs with
  | None | Some (VDict _) => true
  | Some _ => false
  end.

(** A feature record: an object whose [properties] and [geometry], where
    present, are objects. *)
Definition is_feature (feature : value) : bool :=
  match feature with
  | VDict fkvs => section_ok "properties" fkvs && section_ok "geometry" fkvs
  | _ => false
  end.

(** A file that is text but not JSON: [json.load] raises [JSONDecodeError]. *)
Definition undecodable (f : file) : bool :=
  match content f with
  | inl (JSONDecodeError _) => true
  | _ => false
  end.

(** A file that decodes to an object whose [features], where present and not
    empty, is a list of feature records. *)
Definition is_collection (f : file) : bool :=
  match content f with
  | inr (VDict kvs) =>
      match dict_get "features" kvs with
      | None => true
      | Some (VList l) => forallb is_feature l
      | Some v => negb (truthy v)
      end
  | _ => false
  end.

Definition features_of (f : file) : list value :=
  match content f with
  | inr (VDict kvs) =>
      match dict_get "features" kvs with
      | Some (VList l) => l
      | _ => []
      end
  | _ => []
  end.

(** The object [parse_feature] makes of a feature. *)
Definition projection (feature : value) : value :=
  match parse_feature feature with
  | Returns parsed_feature => VDict parsed_feature
  | _ => VNone
  end.

(** The text of a JSON array as the joiner lays it out: an opening bracket and
    line feed, the serialised items separated by a comma and line feed, a line
    feed and the closing bracket. *)
Definition separated (items : list value) : list chunk :=
  match items with
  | [] => []
  | x :: rest => Json x :: flat_map (fun y => [Text ("," +:+ LF); Json y]) rest
  end.

Definition array_of (items : list value) : list chunk :=
  Text ("[" +:+ LF) :: separated items ++ [Text (LF +:+ "]")].

(** The output file holds the opening of an array and [items], and the flag
    [first_feature] says whether there are none yet. *)
Definition lays_out (st : jstate) (items : list value) : Prop :=
  out_f st = Text ("[" +:+ LF) :: separated items /\
  first_feature st = match items with [] => true | _ => false end.

(** The names on the failure lines of a console. *)
Definition failed_names (evs : list event) : list string :=
  flat_map (fun e => match e with Failed n _ => [n] | _ => [] end) evs.

(** The example record of the specification, and one whose sections share a key. *)
Definition example_feature : value :=
  VDict [("properties", VDict [("mag", VFloat 5.1); ("id", VStr "xyz");
                               ("place", VStr "Tokyo")]);
         ("geometry", VDict [("type", VStr "Point");
                             ("coordinates", VList [VInt 1; VInt 2])])].

Definition colliding_feature : value :=
  VDict [("properties", VDict [("place", VStr "Tokyo"); ("mag", VFloat 5.1)]);
         ("geometry", VDict [("place", VStr "Point")])].

End JoinData.

(** ** app/models/test.py *)

Module Inference.

Local Open Scope Q_scope.

Definition energy_to_magnitude `{PyLib} (energy_joules : Q) : outcome Q :=
  if Qle_bool energy_joules 0 then Raises (ValueError "Energy must be positive")
  else
    let log_energy := log10 energy_joules in
    let magnitude := (log_energy - 4.8) / 1.5 in
    Returns magnitude.

Definition calculate_kinetic_energy (mass_kg velocity_ms : Q) : Q :=
  0.5 * mass_kg * velocity_ms ^ 2.

(** What a call reads from the world: [int(datetime.now().timestamp() * 1000)]
    and the draw of [np.random.uniform(0, 5)]. *)
Record Env : Type := { now_ms : Z; uniform_0_5 : Q }.

(** The alert rules of [generate_seismic_features], first match wins. *)
Definition alert_cascade (magnitude depth : Q) (sig : Z) (mmi cdi : Q) : Z :=
  if Qle_bool 7.0 magnitude || (1000 <=? sig)%Z || Qle_bool 8.0 mmi || Qle_bool 7.0 cdi
  then 4
  else if Qle_bool 6.5 magnitude || (700 <=? sig)%Z || Qle_bool 6.5 mmi || Qle_bool 5.5 cdi
          || (Qle_bool 6.0 magnitude && Qle_bool depth 10)
  then 3
  else if Qle_bool 6.0 magnitude || (400 <=? sig)%Z || Qle_bool 5.0 mmi || Qle_bool 4.0 cdi
          || (Qle_bool 5.5 magnitude && Qle_bool depth 20)
  then 2
  else if Qle_bool 5.5 magnitude || (200 <=? sig)%Z || Qle_bool 4.0 mmi || Qle_bool 3.0 cdi
          || (Qle_bool 5.0 magnitude && Qle_bool depth 30)
  then 1
  else 0.

Definition generate_seismic_features (env : Env) (magnitude latitude longitude : Q)
    : gmap string value :=
  let features : gmap string value := ∅ in
  let features := <["mag" := VFloat magnitude]> features in
  let features := <["latitude" := VFloat latitude]> features in
  let features := <["longitude" := VFloat longitude]> features in
  let features := <["time" := VInt (now_ms env)]> features in
  let depth := uniform_0_5 env in
  let features := <["depth" := VFloat depth]> features in
  let cdi :=
    if Qle_bool 7.0 magnitude then 6.0
    else if Qle_bool 6.0 magnitude then 4.0
    else if Qle_bool 5.0 magnitude then 3.0
    else 2.0 in
  let features := <["cdi" := VFloat cdi]> features in
  let mmi :=
    if Qle_bool 7.0 magnitude then 7.0
    else if Qle_bool 6.0 magnitude then 5.0
    else if Qle_bool 5.0 magnitude then 4.0
    else 3.0 in
  let features := <["mmi" := VFloat mmi]> features in
  let base_felt := Z.max 0 (Qtrunc ((magnitude - 3) * 1000)) in
  let features := <["felt" := VInt base_felt]> features in
  let sig := Qtrunc (magnitude * 100 + 100) in
  let features := <["sig" := VInt sig]> features in
  let features := <["alert" := VInt (alert_cascade magnitude depth sig mmi cdi)]> features in
  let features := <["tsunami" := VInt 0]> features in
  let features := <["magType" := VInt 24]> features in
  features.

(** The derived entries of the vector, as functions of the magnitude. *)
Definition cdi_of (magnitude : Q) : Q :=
  if Qle_bool 7.0 magnitude then 6.0
  else if Qle_bool 6.0 magnitude then 4.0
  else if Qle_bool 5.0 magnitude then 3.0
  else 2.0.

Definition mmi_of (magnitude : Q) : Q :=
  if Qle_bool 7.0 magnitude then 7.0
  else if Qle_bool 6.0 magnitude then 5.0
  else if Qle_bool 5.0 magnitude then 4.0
  else 3.0.

Definition sig_of (magnitude : Q) : Z := Qtrunc (magnitude * 100 + 100).

(** The alert tier of a vector synthesized at [magnitude] with depth [depth]. *)
Definition alert_of (magnitude depth : Q) : Z :=
  alert_cascade magnitude depth (sig_of magnitude) (mmi_of magnitude) (cdi_of magnitude).

(** The pickled artifacts, by what the code calls on them. *)
Record Scaler : Type := { transform : list Q -> exn + list Q }.
Record KMeans : Type := { predict : list Q -> exn + Z }.

(** A frame read by [pd.read_csv]: column names, rows in file order; a row's
    label is its position. *)
Record DataFrame : Type := { columns : list string; rows : list (list value) }.

Fixpoint index_of (x : string) (l : list string) : option nat :=
  match l with
  | [] => None
  | y :: rest => if String.eqb x y then Some O else S <$> index_of x rest
  end.

Definition column (df : DataFrame) (c : string) : outcome nat :=
  match index_of c (columns df) with
  | Some i => Returns i
  | None => Raises (KeyError c)
  end.

(** A field the file leaves out is read as NaN. *)
Definition cell (row : list value) (i : nat) : value := nth i row VNaN.

(** [cell == cluster_id] *)
Definition equals_int (v : value) (n : Z) : bool :=
  match v with
  | VInt m => (m =? n)%Z
  | VFloat q => Qeq_bool q (inject_Z n)
  | VBool b => ((if b then 1 else 0) =? n)%Z
  | _ => false
  end.

(** The conversion to a float array that [euclidean_distances] and the scaler
    perform on their input; NaN is refused. *)
Definition as_float `{PyLib} (v : value) : outcome Q :=
  match v with
  | VInt n => Returns (inject_Z n)
  | VFloat q => Returns q
  | VBool b => Returns (if b then 1 else 0)
  | VNaN => Raises (ValueError "Input contains NaN.")
  | VStr s =>
      match float_of_str s with
      | Some q => Returns q
      | None => Raises (ValueError ("could not convert string to float: " +:+ s))
      end
  | other => Raises (TypeError ("float() argument must be a string or a real number, not '"
                                 +:+ type_name other +:+ "'"))
  end.

Fixpoint for_all {A B} (f : A -> outcome B) (l : list A) : outcome (list B) :=
  match l with
  | [] => Returns []
  | x :: rest => y ← f x; ys ← for_all f rest; Returns (y :: ys)
  end.

(** The squared Euclidean distance; its root, which the code reports, orders
    the rows the same way. *)
Fixpoint distance2 (a b : list Q) : Q :=
  match a, b with
  | x :: a', y :: b' => (x - y) ^ 2 + distance2 a' b'
  | _, _ => 0
  end.

(** [np.argmin]: the first position of the least element. *)
Fixpoint argmin_from (best_i : nat) (best : Q) (i : nat) (l : list Q) : nat :=
  match l with
  | [] => best_i
  | d :: rest =>
      if Qle_bool best d then argmin_from best_i best (S i) rest
      else argmin_from i d (S i) rest
  end.

Definition argmin (l : list Q) : nat :=
  match l with
  | [] => O
  | d :: rest => argmin_from O d 1%nat rest
  end.

Definition comparison_features : list string :=
  ["mag"; "depth"; "latitude"; "longitude"; "sig"; "cdi"; "mmi"].

(** A row of a frame as a series: label, and the cells by column. *)
Record Series : Type := { label : nat; cells : list (string * value) }.

Definition series_of (df : DataFrame) (i : nat) (row : list value) : Series :=
  {| label := i; cells := map (fun c => (c, cell row (default O (index_of c (columns df)))))
                            (columns df) |}.

Fixpoint labelled {A} (i : nat) (l : list A) : list (nat * A) :=
  match l with
  | [] => []
  | x :: rest => (i, x) :: labelled (S i) rest
  end.

(** [clustered_data[clustered_data['cluster'] == cluster_id]] *)
Definition select_cluster (cluster_id : Z) (clustered_data : DataFrame)
    : outcome (list (nat * list value)) :=
  c ← column clustered_data "cluster";
  Returns (List.filter (fun lr => equals_int (cell (snd lr) c) cluster_id)
             (labelled O (rows clustered_data))).

(** Returns [None] for the triple [(None, None, None)]; the distance is squared. *)
Definition find_closest_in_cluster `{PyLib} (cluster_id : Z)
    (synthetic_features : gmap string Q) (clustered_data original_data : DataFrame)
    : outcome (option (Series * Series * Q)) :=
  cluster_data ← select_cluster cluster_id clustered_data;
  match cluster_data with
  | [] => Returns None
  | _ =>
      synthetic_array ← for_all
        (fun f => match synthetic_features !! f with
                  | Some x => Returns x
                  | None => Raises (KeyError f)
                  end) comparison_features;
      cols ← for_all (column clustered_data) comparison_features;
      cluster_array ← for_all
        (fun lr => for_all (fun c => as_float (cell (snd lr) c)) cols) cluster_data;
      let distances := map (distance2 synthetic_array) cluster_array in
      let closest_idx := argmin distances in
      match nth_error cluster_data closest_idx with
      | None => Raises (IndexError "single positional indexer is out-of-bounds")
      | Some (name, row) =>
          let closest_example_normalized := series_of clustered_data name row in
          match nth_error (rows original_data) name with
          | None => Raises (IndexError "single positional indexer is out-of-bounds")
          | Some orow =>
              let closest_example_original := series_of original_data name orow in
              Returns (Some (closest_example_normalized, closest_example_original,
                             nth closest_idx distances 0))
          end
      end
  end.

(** The files next to the module; [None] is a file that cannot be loaded. *)
Record Artifacts : Type := {
  kmeans_model : option KMeans;
  scaler_pkl : option Scaler;
  model_info_pkl : option (list (string * list string));
  clustered_earthquakes : option DataFrame;
  dataset : option DataFrame
}.

Definition all_features : list string :=
  ["mag"; "time"; "felt"; "cdi"; "mmi"; "alert"; "sig"; "tsunami"; "magType";
   "longitude"; "latitude"; "depth"].

Definition keep_original : list string := ["mag"; "latitude"; "longitude"].

Definition lookup_feature (features : gmap string value) (f : string) : outcome value :=
  match features !! f with
  | Some v => Returns v
  | None => Raises (KeyError f)
  end.

Definition at_index (l : list Q) (i : nat) : outcome Q :=
  match nth_error l i with
  | Some x => Returns x
  | None => Raises (IndexError "index out of bounds")
  end.

(** The loop that fills [full_feature_array], with its counter [normalize_idx]. *)
Fixpoint assemble `{PyLib} (features features_to_normalize : list string)
    (normalized_subset : list Q) (synthetic_features : gmap string value)
    (normalize_idx : nat) : outcome (list Q) :=
  match features with
  | [] => Returns []
  | feature :: rest =>
      if str_in feature features_to_normalize then
        x ← at_index normalized_subset normalize_idx;
        xs ← assemble rest features_to_normalize normalized_subset synthetic_features
               (S normalize_idx);
        Returns (x :: xs)
      else
        v ← lookup_feature synthetic_features feature;
        x ← as_float v;
        xs ← assemble rest features_to_normalize normalized_subset synthetic_features
               normalize_idx;
        Returns (x :: xs)
  end.

(** [{f: normalized_subset[features_to_normalize.index(f)] for f in features_to_normalize}] *)
Definition normalized_dict (features_to_normalize : list string) (normalized_subset : list Q)
    : outcome (gmap string Q) :=
  fold_left
    (fun acc f =>
       d ← acc;
       x ← at_index normalized_subset (default O (index_of f features_to_normalize));
       Returns (<[f := x]> d))
    features_to_normalize (Returns ∅).

(** [for column in closest_original.index: if column not in keep_original: ...] *)
Definition refine (synthetic_features : gmap string value) (closest_original : Series)
    : gmap string value :=
  fold_left
    (fun refined_features cv =>
       if str_in (fst cv) keep_original then refined_features
       else <[fst cv := snd cv]> refined_features)
    (cells closest_original) synthetic_features.

(** What [predict_seismic_impact] returns: [None], or the triple. *)
Inductive prediction : Type :=
| NoPrediction
| Prediction (features : gmap string value) (energy : Q) (cluster : Z).

(** Steps 4 and 5: the vector handed to the model, its cluster, and the
    normalized features by name. *)
Definition infer `{PyLib} (kmeans : KMeans) (scaler : Scaler)
    (model_info : list (string * list string)) (synthetic_features : gmap string value)
    : outcome (list Q * Z * gmap string Q) :=
  features_to_normalize ←
    match dict_get "features_to normalize" model_info with
    | Some l => Returns l
    | None => Raises (KeyError "features_to normalize")
    end;
  feature_values_to_normalize ←
    for_all (fun f => v ← lookup_feature synthetic_features f; as_float v)
      features_to_normalize;
  normalized_subset ← call (transform scaler feature_values_to_normalize);
  full_feature_array ←
    assemble all_features features_to_normalize normalized_subset synthetic_features O;
  predicted_cluster ← call (predict kmeans full_feature_array);
  normalized ← normalized_dict features_to_normalize normalized_subset;
  Returns (full_feature_array, predicted_cluster, normalized).

Definition predict_seismic_impact `{PyLib} (env : Env) (files : Artifacts)
    (mass_kg velocity_ms latitude longitude : Q) : outcome prediction :=
  let energy := calculate_kinetic_energy mass_kg velocity_ms in
  magnitude ← energy_to_magnitude energy;
  let synthetic_features := generate_seismic_features env magnitude latitude longitude in
  match kmeans_model files, scaler_pkl files, model_info_pkl files,
        clustered_earthquakes files, dataset files with
  | Some kmeans, Some scaler, Some model_info, Some clustered_data, Some original_data =>
      '(_, predicted_cluster, normalized) ←
        infer kmeans scaler model_info synthetic_features;
      closest ← find_closest_in_cluster predicted_cluster normalized
                  clustered_data original_data;
      match closest with
      | Some (closest_normalized, closest_original, distance) =>
          let refined_features := refine synthetic_features closest_original in
          Returns (Prediction refined_features energy predicted_cluster)
      | None => Returns (Prediction synthetic_features energy predicted_cluster)
      end
  | _, _, _, _, _ =>
      (* except Exception as e: print(...); return None *)
      Returns NoPrediction
  end.

End Inference.

(** ** app/routers/predict.py *)

Module Router.
Import Inference.

Local Open Scope Q_scope.

Record PredictionData : Type := {
  mass : Q;
  velocity : Q;
  latitude : Q;
  longitude : Q
}.

(** The response model; a float field holds [VFloat] or [VNaN].  The [message]
    field, a rendering of [magnitude] and [alert_level], is left out. *)
Record PredictionResponse : Type := {
  success : bool;
  magnitude : value;
  energy : Q;
  cluster : Z;
  alert_level : string;
  alert_level_numeric : Z;
  intensity_mmi : value;
  community_intensity_cdi : value;
  significance : value;
  depth : value;
  tsunami_warning : bool;
  location : Q * Q;
  asteroid_properties : Q * Q * Q
}.

(** [int(v)] *)
Definition py_int `{PyLib} (v : value) : outcome Z :=
  match v with
  | VInt n => Returns n
  | VBool b => Returns (if b then 1 else 0)%Z
  | VFloat q => Returns (Qtrunc q)
  | VNaN => Raises (ValueError "cannot convert float NaN to integer")
  | VStr s =>
      match int_of_str s with
      | Some n => Returns n
      | None => Raises (ValueError ("invalid literal for int() with base 10: '" +:+ s +:+ "'"))
      end
  | other => Raises (TypeError ("int() argument must be a string, a bytes-like object or a real number, not '"
                                 +:+ type_name other +:+ "'"))
  end.

(** [float(v)] *)
Definition py_float `{PyLib} (v : value) : outcome value :=
  match v with
  | VNaN => Returns VNaN
  | other => q ← as_float other; Returns (VFloat q)
  end.

(** [alert_names.get(n, "Unknown")] *)
Definition alert_names (n : Z) : string :=
  match n with
  | 0%Z => "No Alert"
  | 1%Z => "Green"
  | 2%Z => "Yellow"
  | 3%Z => "Orange"
  | 4%Z => "Red"
  | _ => "Unknown"
  end.

Definition validate (data : PredictionData) : outcome unit :=
  if Qle_bool (mass data) 0 then Raises (HTTPException 400 "Mass must be positive")
  else if Qle_bool (velocity data) 0 then
    Raises (HTTPException 400 "Velocity must be positive")
  else if negb (Qle_bool (-90) (latitude data) && Qle_bool (latitude data) 90) then
    Raises (HTTPException 400 "Latitude must be between -90 and 90 degrees")
  else if negb (Qle_bool (-180) (longitude data) && Qle_bool (longitude data) 180) then
    Raises (HTTPException 400 "Longitude must be between -180 and 180 degrees")
  else Returns tt.

(** [result, energy, cluster = predict_seismic_impact(...)]: the targets of the
    assignment; [None] cannot be unpacked.  The first component of a triple is
    always a dictionary, [Some] here. *)
Definition unpack (p : prediction) : outcome (option (gmap string value) * Q * Z) :=
  match p with
  | NoPrediction => Raises (TypeError "cannot unpack non-iterable NoneType object")
  | Prediction features e c => Returns (Some features, e, c)
  end.

(** The body of the [try]. *)
Definition predict_body `{PyLib} (env : Env) (files : Artifacts) (data : PredictionData)
    : outcome PredictionResponse :=
  _ ← validate data;
  p ← predict_seismic_impact env files (mass data) (velocity data) (latitude data)
        (longitude data);
  '(result, energy, cluster) ← unpack p;
  match result with
  | None => Raises (HTTPException 500 "Prediction model failed to load or execute")
  | Some result =>
      alert ← lookup_feature result "alert";
      alert_level_numeric ← py_int alert;
      let alert_level := alert_names alert_level_numeric in
      mag ← lookup_feature result "mag";
      magnitude ← py_float mag;
      mmi ← lookup_feature result "mmi";
      intensity_mmi ← py_float mmi;
      cdi ← lookup_feature result "cdi";
      community_intensity_cdi ← py_float cdi;
      sig ← lookup_feature result "sig";
      significance ← py_float sig;
      dep ← lookup_feature result "depth";
      depth ← py_float dep;
      tsunami ← lookup_feature result "tsunami";
      Returns {| success := true;
                 magnitude := magnitude;
                 energy := energy;
                 cluster := cluster;
                 alert_level := alert_level;
                 alert_level_numeric := alert_level_numeric;
                 intensity_mmi := intensity_mmi;
                 community_intensity_cdi := community_intensity_cdi;
                 significance := significance;
                 depth := depth;
                 tsunami_warning := truthy tsunami;
                 location := (latitude data, longitude data);
                 asteroid_properties := (mass data, velocity data, energy) |}
  end.

(** [except HTTPException: raise], [except Exception as e: raise HTTPException(500, ...)].
    A raised [HTTPException] is the error response the client receives. *)
Definition predict `{PyLib} (env : Env) (files : Artifacts) (data : PredictionData)
    : outcome PredictionResponse :=
  try_except (predict_body env files data)
    (fun e => match e with HTTPException _ _ => false | _ => true end)
    (fun e => Raises (HTTPException 500 ("Internal server error: " +:+ str_of_exn e))).

End Router.

(** ** In-memory doubles

    Concrete library functions and artifacts on which the definitions above can
    be run.  The properties below hold for every library and every artifact;
    the doubles only serve to evaluate them on examples. *)

Module Fixtures.
Import Inference.

Definition is_space (c : ascii) : bool :=
  let n := nat_of_ascii c in (n =? 32)%nat || ((9 <=? n)%nat && (n <=? 13)%nat).

Fixpoint lstrip (s : string) : string :=
  match s with
  | String c rest => if is_space c then lstrip rest else s
  | EmptyString => s
  end.

Fixpoint rstrip (s : string) : string :=
  match s with
  | String c rest =>
      match rstrip rest with
      | EmptyString => if is_space c then EmptyString else String c EmptyString
      | rest' => String c rest'
      end
  | EmptyString => s
  end.

Definition strip (s : string) : string := rstrip (lstrip s).

Definition digit (c : ascii) : option Z :=
  let n := nat_of_ascii c in
  if (48 <=? n)%nat && (n <=? 57)%nat then Some (Z.of_nat n - 48) else None.

Fixpoint digits (s : string) (acc : Z) : option Z :=
  match s with
  | EmptyString => Some acc
  | String c rest =>
      match digit c with
      | Some d => digits rest (acc * 10 + d)
      | None => None
      end
  end.

(** Signed decimal literals in ASCII, the common case of [int(str)]. *)
Definition decimal (s : string) : option Z :=
  match strip s with
  | EmptyString => None
  | String "-" (String c rest) => Z.opp <$> digits (String c rest) 0
  | String "+" (String c rest) => digits (String c rest) 0
  | String "-" EmptyString | String "+" EmptyString => None
  | other => digits other 0
  end.

(** The double quote. *)
Definition DQ : ascii := "034"%char.

Fixpoint until_quote (s : string) : option (string * string) :=
  match s with
  | EmptyString => None
  | String c rest =>
      if Ascii.eqb c DQ then Some (EmptyString, rest)
      else match until_quote rest with
           | Some (k, rest') => Some (String c k, rest')
           | None => None
           end
  end.

(** The longest run of digits at the head of [s], and what follows it. *)
Fixpoint number_prefix (s : string) (acc : option Z) : option Z * string :=
  match s with
  | String c rest =>
      match digit c with
      | Some d => number_prefix rest (Some (default 0 acc * 10 + d))
      | None => (acc, s)
      end
  | EmptyString => (acc, s)
  end.

(** The members of a flat object: string keys without escapes, natural numbers. *)
Fixpoint members (fuel : nat) (s : string) : option (list (string * value)) :=
  match fuel with
  | O => None
  | S fuel' =>
      match lstrip s with
      | String c rest =>
          if Ascii.eqb c DQ then
            match until_quote rest with
            | Some (k, after_key) =>
                match lstrip after_key with
                | String ":" after_colon =>
                    match number_prefix (lstrip after_colon) None with
                    | (Some n, after_number) =>
                        match lstrip after_number with
                        | String "," more =>
                            match members fuel' more with
                            | Some kvs => Some ((k, VInt n) :: kvs)
                            | None => None
                            end
                        | String "}" tail =>
                            match lstrip tail with
                            | EmptyString => Some [(k, VInt n)]
                            | _ => None
                            end
                        | _ => None
                        end
                    | (None, _) => None
                    end
                | _ => None
                end
            | None => None
            end
          else None
      | EmptyString => None
      end
  end.

(** [json.loads] on integers and on flat objects of natural numbers; a
    repeated key keeps its last value.  JSON has no leading plus sign. *)
Definition loads (s : string) : option value :=
  match (if String.prefix "+" (strip s) then None else decimal s) with
  | Some n => Some (VInt n)
  | None =>
      match lstrip s with
      | String "{" rest =>
          match lstrip rest with
          | String "}" tail =>
              match lstrip tail with
              | EmptyString => Some (VDict [])
              | _ => None
              end
          | _ =>
              match members (String.length s) rest with
              | Some kvs =>
                  Some (VDict (fold_left (fun d kv => dict_set (fst kv) (snd kv) d) kvs []))
              | None => None
              end
          end
      | _ => None
      end
  end.

Fixpoint count_tens (fuel : nat) (n : Z) : Z :=
  match fuel with
  | O => 0
  | S fuel' => if n <? 10 then 0 else 1 + count_tens fuel' (n / 10)
  end.

(** The integer part of the decimal logarithm, for arguments from 1 on. *)
Definition log10_floor (q : Q) : Q :=
  inject_Z (count_tens (S (Z.to_nat (Z.log2 (Qfloor q)))) (Qfloor q)).

Definition double : PyLib := {|
  str_strip := strip;
  int_of_str := decimal;
  float_of_str := fun s => inject_Z <$> decimal s;
  json_loads := loads;
  log10 := log10_floor
|}.

(** A response body carrying the count in an object. *)
Definition count_body : string :=
  "{" +:+ String DQ "count" +:+ String DQ ": 25000}".

(** A scaler computing [(x - mean) / scale] per feature, and a clustering model
    assigning the nearest of its centres. *)
Definition standard_scaler (mean scale : list Q) : Scaler :=
  {| transform := fun xs =>
       if (length xs =? length mean)%nat then
         inr (map (fun xms => (fst xms - fst (snd xms)) / snd (snd xms))%Q
                (combine xs (combine mean scale)))
       else inl (ValueError "X has a different number of features than the scaler was fitted on") |}.

Definition nearest_centre (centres : list (list Q)) : KMeans :=
  {| predict := fun x => inr (Z.of_nat (argmin (map (distance2 x) centres))) |}.

Definition features_to_normalize : list string :=
  ["mag"; "cdi"; "mmi"; "sig"; "longitude"; "latitude"; "depth"].

(** Three centres that differ in their [time] coordinate only. *)
Definition centres : list (list Q) :=
  [ [0; 0; 0; 0; 0; 0; 0; 0; 0; 0; 0; 0];
    [0; 2000000000000; 0; 0; 0; 0; 0; 0; 0; 0; 0; 0];
    [0; 4000000000000; 0; 0; 0; 0; 0; 0; 0; 0; 0; 0] ]%Q.

(** Two clustered rows, in clusters 0 and 1; none in cluster 2. *)
Definition clustered : DataFrame :=
  {| columns := ["mag"; "depth"; "latitude"; "longitude"; "sig"; "cdi"; "mmi"; "cluster"];
     rows := [ [VFloat 1.5; VFloat 0.2; VFloat 0.4; VFloat 0.8; VFloat 1; VFloat 1;
                VFloat 1; VInt 0];
               [VFloat 0.5; VFloat (-0.5); VFloat (-0.2); VFloat 0.1; VFloat 0;
                VFloat 0; VFloat 0; VInt 1] ] |}.

Definition original : DataFrame :=
  {| columns := ["mag"; "time"; "felt"; "cdi"; "mmi"; "alert"; "sig"; "tsunami";
                 "magType"; "longitude"; "latitude"; "depth"; "place"];
     rows := [ [VFloat 6.5; VInt 1300000000000; VInt 120; VFloat 6.1; VFloat 6.4;
                VInt 2; VInt 710; VInt 0; VInt 24; VFloat 142.3; VFloat 38.2;
                VFloat 12; VStr "off the east coast of Honshu"];
               [VFloat 5.5; VInt 1500000000000; VNaN; VFloat 3.4; VFloat 4.2;
                VInt 1; VInt 465; VInt 1; VInt 24; VFloat 16.9; VFloat (-7.5);
                VFloat 5; VStr "near the coast"] ] |}.

Definition artifacts : Artifacts :=
  {| kmeans_model := Some (nearest_centre centres);
     scaler_pkl := Some (standard_scaler [5; 3; 4; 600; 0; 0; 10]%Q
                                         [1; 1; 1; 100; 180; 90; 10]%Q);
     model_info_pkl := Some [("features_to normalize", features_to_normalize)];
     clustered_earthquakes := Some clustered;
     dataset := Some original |}.

(** The same directory without the clustering model. *)
Definition artifacts_without_model : Artifacts :=
  {| kmeans_model := None;
     scaler_pkl := scaler_pkl artifacts;
     model_info_pkl := model_info_pkl artifacts;
     clustered_earthquakes := clustered_earthquakes artifacts;
     dataset := dataset artifacts |}.

(** The request of the end-to-end scenario. *)
Definition tokyo : Router.PredictionData :=
  {| Router.mass := 14000000; Router.velocity := 18000;
     Router.latitude := 35.6762; Router.longitude := 139.6503 |}.

(** Three clock readings, and a draw of the depth. *)
Definition at_clock (now : Z) : Env := {| now_ms := now; uniform_0_5 := 2.5 |}.

(** Chunk files: two collections, a file that is not JSON, a collection
    without [features], and a file holding [null]. *)
Definition january : JoinData.file :=
  {| JoinData.name := "earthquake_data_2020-01-01_2020-01-31.json";
     JoinData.content :=
       inr (VDict [("type", VStr "FeatureCollection");
                   ("features", VList [JoinData.example_feature;
                                       JoinData.colliding_feature])]) |}.

Definition february : JoinData.file :=
  {| JoinData.name := "earthquake_data_2020-02-01_2020-02-29.json";
     JoinData.content := inl (JSONDecodeError "Expecting value") |}.

Definition march : JoinData.file :=
  {| JoinData.name := "earthquake_data_2020-03-01_2020-03-31.json";
     JoinData.content :=
       inr (VDict [("type", VStr "FeatureCollection");
                   ("features", VList [VDict [("properties",
                                               VDict [("mag", VFloat 4.7)])]])]) |}.

Definition april : JoinData.file :=
  {| JoinData.name := "earthquake_data_2020-04-01_2020-04-30.json";
     JoinData.content := inr (VDict [("type", VStr "FeatureCollection")]) |}.

Definition may : JoinData.file :=
  {| JoinData.name := "earthquake_data_2020-05-01_2020-05-31.json";
     JoinData.content := inr VNone |}.

(** A file whose bytes are not UTF-8. *)
Definition june : JoinData.file :=
  {| JoinData.name := "earthquake_data_2020-06-01_2020-06-30.json";
     JoinData.content :=
       inl (UnicodeDecodeError
              "'utf-8' codec can't decode byte 0xff in position 0: invalid start byte") |}.

End Fixtures.

(** ** Notions used to state further properties *)

Module Specs.

(** *** Acquisition *)

(** The chunks of a store follow one another from [from]: each starts where
    the one before left off (the day after its end), ends on or after its own
    start and no later than [final_date].  The result is the day after the
    last chunk, [from] itself for an empty store. *)
Fixpoint follow (from final_date : GetData.date) (files : GetData.store)
    : option GetData.date :=
  match files with
  | [] => Some from
  | (s, e, _) :: rest =>
      if (s =? from) && (s <=? e) && (e <=? final_date)
      then follow (e + 1) final_date rest
      else None
  end.

(** The counts the service answers for the chunks of a store, added up. *)
Fixpoint counted (r : GetData.remote) (files : GetData.store) : Z :=
  match files with
  | [] => 0
  | (s, e, _) :: rest =>
      match GetData.count_of r s e with
      | inr count => count + counted r rest
      | inl _ => counted r rest
      end
  end.

(** Every file holds what the service answers to the query of its range. *)
Definition recorded (r : GetData.remote) (files : GetData.store) : Prop :=
  Forall (fun f => GetData.query_of r (fst (fst f)) (snd (fst f)) = inr (snd f)) files.

(** *** Joining *)

(** The JSON values that are neither strings nor containers: a membership
    test on them raises. *)
Definition is_scalar (v : value) : bool :=
  match v with
  | VNone | VBool _ | VInt _ | VFloat _ | VNaN => true
  | VStr _ | VList _ | VDict _ => false
  end.

(** *** Inference *)

(** The metadata lists the features to normalize in the order in which
    [all_features] has them. *)
Definition in_model_order (features_to_normalize : list string) : Prop :=
  List.filter (fun f => str_in f features_to_normalize) Inference.all_features
  = features_to_normalize.


End Specs.

(** ** More in-memory data *)

Module Samples.
Import Inference.

(** A clustered frame with three rows in cluster 0, the second and third at
    the same distance from [query]; and its original-scale counterpart. *)
Definition clustered : DataFrame :=
  {| columns := ["mag"; "depth"; "latitude"; "longitude"; "sig"; "cdi"; "mmi"; "cluster"];
     rows := [ [VFloat 2; VFloat 0; VFloat 0; VFloat 0; VFloat 0; VFloat 0; VFloat 0;
                VInt 0];
               [VFloat 9; VFloat 9; VFloat 9; VFloat 9; VFloat 9; VFloat 9; VFloat 9;
                VInt 1];
               [VFloat 1; VFloat 0; VFloat 0; VFloat 0; VFloat 0; VFloat 0; VFloat 0;
                VInt 0];
               [VFloat (-1); VFloat 0; VFloat 0; VFloat 0; VFloat 0; VFloat 0; VFloat 0;
                VInt 0] ] |}.

Definition original : DataFrame :=
  {| columns := ["mag"; "place"];
     rows := [ [VFloat 7.1; VStr "first"]; [VFloat 8.8; VStr "second"];
               [VFloat 6.2; VStr "third"]; [VFloat 4.9; VStr "fourth"] ] |}.


(** Metadata that lists the normalized features in the order of the comparison
    features, not in the order of [all_features], and a scaler fitted in that
    order. *)
Definition comparison_order : list (string * list string) :=
  [("features_to normalize", comparison_features)].

Definition comparison_scaler : Scaler :=
  Fixtures.standard_scaler [5; 10; 0; 0; 600; 3; 4]%Q [1; 10; 90; 180; 100; 1; 1]%Q.

End Samples.

(** * Properties *)

(** ** Loops run with fuel *)

Section WhileLoop.
Context {S R : Type}.
Variable body : S -> outcome (loop_step S R).
Variable measure : S -> nat.
Variable Inv : S -> Prop.
Variable Post : R -> Prop.

Hypothesis body_runs : forall s, Inv s -> body s <> OutOfFuel.
Hypothesis body_continue : forall s s',
  Inv s -> body s = Returns (Continue s') -> Inv s' /\ (measure s' < measure s)%nat.
Hypothesis body_break : forall s r, Inv s -> body s = Returns (Break r) -> Post r.

(** Fuel above the measure is never exhausted. *)
Lemma while_loop_enough_fuel fuel s :
  Inv s -> (measure s < fuel)%nat -> while_loop fuel body s <> OutOfFuel.
Proof.
  revert s. induction fuel as [|fuel IH]; intros s Hs Hm; [lia|].
  simpl. destruct (body s) as [[s'|r]| |] eqn:Hb; try done.
  - destruct (body_continue s s' Hs Hb) as [Hs' Hlt]. apply IH; [done | lia].
  - by destruct (body_runs s Hs).
Qed.

(** What the loop returns satisfies the postcondition of its exits. *)
Lemma while_loop_post fuel s r :
  Inv s -> while_loop fuel body s = Returns r -> Post r.
Proof.
  revert s. induction fuel as [|fuel IH]; intros s Hs; [done|].
  simpl. destruct (body s) as [[s'|r']| |] eqn:Hb; try done.
  - apply IH. by destruct (body_continue s s' Hs Hb).
  - intros [= <-]. by apply (body_break s).
Qed.

(** A body that never raises makes the loop return. *)
Lemma while_loop_returns fuel s :
  (forall s, Inv s -> forall e, body s <> Raises e) ->
  Inv s -> (measure s < fuel)%nat ->
  exists r, while_loop fuel body s = Returns r /\ Post r.
Proof.
  intros Hnr. revert s. induction fuel as [|fuel IH]; intros s Hs Hm; [lia|].
  simpl. destruct (body s) as [[s'|r]|e|] eqn:Hb.
  - destruct (body_continue s s' Hs Hb) as [Hs' Hlt]. apply IH; [done | lia].
  - exists r. split; [done | by apply (body_break s)].
  - by destruct (Hnr s Hs e).
  - by destruct (body_runs s Hs).
Qed.
End WhileLoop.

(** A bind that returns went through a returning first step. *)
Lemma bind_Returns {A B} (m : outcome A) (f : A -> outcome B) b :
  m ≫= f = Returns b -> exists a, m = Returns a /\ f a = Returns b.
Proof. destruct m as [a| |]; simpl; [eauto | done | done]. Qed.

(** More fuel does not change a result. *)
Lemma while_loop_more_fuel {S R} (body : S -> outcome (loop_step S R)) fuel fuel' s :
  while_loop fuel body s <> OutOfFuel -> (fuel <= fuel')%nat ->
  while_loop fuel' body s = while_loop fuel body s.
Proof.
  revert fuel' s. induction fuel as [|fuel IH]; intros fuel' s Hr Hle; [done|].
  destruct fuel' as [|fuel']; [lia|].
  simpl in *. destruct (body s) as [[s'|r]| |]; try done.
  apply IH; [done | lia].
Qed.

(** ** The chunk planner *)

Section Planner.
Import GetData.
Variable r : remote.
Variable start_date : date.

Lemma meets_target_iff count : meets_target count = true <-> 12000 <= count.
Proof. unfold meets_target, TARGET_EVENTS. rewrite Z.leb_le. lia. Qed.

(** [search_body] goes one of the six ways. *)
Lemma search_body_pass s : pass r start_date s (search_body r start_date s).
Proof.
  unfold search_body. fold (midpoint s).
  destruct (left s <=? right s) eqn:Hlr;
    [apply Z.leb_le in Hlr | apply Z.leb_gt in Hlr; by constructor].
  destruct (midpoint s <=? start_date) eqn:Hmid;
    [apply Z.leb_le in Hmid; by apply pass_degenerate | apply Z.leb_gt in Hmid].
  destruct (count_of r start_date (midpoint s)) as [e|count] eqn:Hc; simpl;
    [by apply pass_raise|].
  destruct (count <=? MAX_EVENTS) eqn:Hcap;
    [apply Z.leb_le in Hcap | apply Z.leb_gt in Hcap; by eapply pass_shrink].
  destruct (meets_target count) eqn:Ht.
  - apply meets_target_iff in Ht. by eapply pass_good.
  - eapply pass_grow; eauto.
    destruct (Z_lt_le_dec count 12000) as [|Hge]; [done|].
    apply meets_target_iff in Hge. congruence.
Qed.

Lemma midpoint_between s : left s <= right s -> left s <= midpoint s <= right s.
Proof.
  intros Hlr. unfold midpoint.
  assert (0 <= (right s - left s) / 2 <= right s - left s); [|lia].
  split; [apply Z.div_pos; lia | apply Z.div_le_upper_bound; lia].
Qed.

Lemma search_body_runs s : search_body r start_date s <> OutOfFuel.
Proof. by destruct (search_body_pass s). Qed.

(** Every pass that continues shrinks the window. *)
Lemma search_body_shrinks s s' :
  search_body r start_date s = Returns (Continue s') -> (window s' < window s)%nat.
Proof.
  intros Hb. pose proof (search_body_pass s) as Hp. rewrite Hb in Hp.
  inversion Hp; subst; unfold window; simpl;
    pose proof (midpoint_between s); lia.
Qed.

(** The planner never exhausts its fuel: the binary search stops. *)
Lemma find_optimal_end_date_runs max_end_date :
  find_optimal_end_date r start_date max_end_date <> OutOfFuel.
Proof.
  unfold find_optimal_end_date.
  apply (while_loop_enough_fuel (search_body r start_date) window (fun _ => True));
    [intros s _; apply search_body_runs | | done | lia].
  intros s s' _ Hb. split; [done | by apply search_body_shrinks].
Qed.

(** The end returned is the start, or a later end no later than the maximum
    whose count was answered and is within the cap. *)
Lemma find_optimal_end_date_end max_end_date e :
  find_optimal_end_date r start_date max_end_date = Returns e ->
  e = start_date \/
  (start_date < e <= max_end_date /\
   exists count, count_of r start_date e = inr count /\ count <= MAX_EVENTS).
Proof.
  unfold find_optimal_end_date.
  set (good e := e = start_date \/
    (start_date < e <= max_end_date /\
     exists count, count_of r start_date e = inr count /\ count <= MAX_EVENTS)).
  apply (while_loop_post (search_body r start_date) window
           (fun s => right s <= max_end_date /\ good (best_end s)) good).
  - intros s s' [Hr Hg] Hb. split; [|by apply search_body_shrinks].
    pose proof (search_body_pass s) as Hp. rewrite Hb in Hp.
    inversion Hp; subst; simpl; pose proof (midpoint_between s).
    + split; [done|]. right. split; [lia | eauto].
    + split; [lia | done].
  - intros s e' [Hr Hg] Hb.
    pose proof (search_body_pass s) as Hp. rewrite Hb in Hp.
    inversion Hp; subst; try done.
    pose proof (midpoint_between s). right. split; [lia | eauto].
  - simpl. split; [lia | by left].
Qed.
End Planner.

Section PlannerResults.
Import GetData.

(** With a counter that always answers, the planner returns. *)
Lemma find_optimal_end_date_returns r start_date max_end_date :
  (forall e, start_date < e <= max_end_date ->
             exists count, count_of r start_date e = inr count) ->
  exists e, find_optimal_end_date r start_date max_end_date = Returns e.
Proof.
  intros Hans. unfold find_optimal_end_date.
  cut (exists e,
         while_loop
           (S (window {| left := start_date; right := max_end_date;
                         best_end := start_date |}))
           (search_body r start_date)
           {| left := start_date; right := max_end_date; best_end := start_date |}
         = Returns e /\ True).
  { intros (e & He & _). by exists e. }
  apply (while_loop_returns (search_body r start_date) window
           (fun s => right s <= max_end_date) (fun _ => True));
    simpl; try done; try lia.
  - intros s _. apply search_body_runs.
  - intros s s' Hr Hb. split; [|by eapply search_body_shrinks].
    pose proof (search_body_pass r start_date s) as Hp. rewrite Hb in Hp.
    pose proof (midpoint_between s).
    inversion Hp; subst; simpl; lia.
  - intros s Hr e Hb.
    pose proof (search_body_pass r start_date s) as Hp. rewrite Hb in Hp.
    inversion Hp as [| |e' Hlr Hmid Hc| | |]; subst.
    pose proof (midpoint_between s Hlr).
    destruct (Hans (midpoint s)) as [count Hcount]; [lia | congruence].
Qed.

(** Under the synthetic counter the range returned is within the cap. *)
Lemma planner_synthetic_cap K start_date max_end_date :
  exists e, find_optimal_end_date (synthetic K) start_date max_end_date = Returns e /\
            (e - start_date) * K <= MAX_EVENTS /\
            (e = start_date \/ start_date < e <= max_end_date).
Proof.
  destruct (find_optimal_end_date_returns (synthetic K) start_date max_end_date)
    as [e He]; [intros; by eexists|].
  exists e. split; [done|].
  destruct (find_optimal_end_date_end _ _ _ _ He) as [->|[Hb (count & Hc & Hcap)]].
  - split; [unfold MAX_EVENTS; lia | by left].
  - simpl in Hc. injection Hc as <-. split; [done | by right].
Qed.

(** Under the synthetic counter, an end at least two days after the start
    whose count lies between 12000 and the cap makes the planner return an
    end whose count lies there too. *)
Lemma planner_synthetic_target K start_date max_end_date e' :
  start_date + 2 <= e' <= max_end_date ->
  12000 <= (e' - start_date) * K <= MAX_EVENTS ->
  exists e, find_optimal_end_date (synthetic K) start_date max_end_date = Returns e /\
            12000 <= (e - start_date) * K <= MAX_EVENTS.
Proof.
  intros He' Hcount. unfold find_optimal_end_date.
  apply (while_loop_returns (search_body (synthetic K) start_date) window
           (fun s => start_date <= left s /\ left s <= e' <= right s)
           (fun e => 12000 <= (e - start_date) * K <= MAX_EVENTS));
    simpl; try lia.
  - intros s _. apply search_body_runs.
  - intros s s' (Hl & Hin) Hb. split; [|by eapply search_body_shrinks].
    pose proof (search_body_pass (synthetic K) start_date s) as Hp.
    rewrite Hb in Hp. pose proof (midpoint_between s).
    assert (HK : 0 < K) by nia.
    inversion Hp as [| | | |count Hlr Hmid Hc Hcap Hlow Heq
                           |count Hlr Hmid Hc Hcap Heq]; subst; simpl;
      simpl in Hc; injection Hc as <-.
    + assert (midpoint s - start_date < e' - start_date); [|lia].
      apply (Z.mul_lt_mono_pos_r K); lia.
    + assert (e' - start_date < midpoint s - start_date); [|lia].
      apply (Z.mul_lt_mono_pos_r K); lia.
  - intros s e (Hl & Hin) Hb.
    pose proof (search_body_pass (synthetic K) start_date s) as Hp.
    rewrite Hb in Hp.
    inversion Hp as [Hlr|Hlr Hmid| |count Hlr Hmid Hc Hcap Hlow| |]; subst.
    + lia.
    + exfalso. pose proof (midpoint_between s Hlr). unfold midpoint in *.
      assert (1 <= (right s - left s) / 2 \/ start_date < left s) as [|];
        [|lia|lia].
      destruct (Z_lt_le_dec start_date (left s)); [by right | left].
      apply Z.div_le_lower_bound; lia.
    + simpl in Hc. injection Hc as <-. lia.
  - intros s _ e Hb.
    pose proof (search_body_pass (synthetic K) start_date s) as Hp.
    rewrite Hb in Hp. by inversion Hp.
Qed.
End PlannerResults.

(** C1. The planner is run on the synthetic counter with 15000 events per day.
    When the maximum end is one day after the start, the one-day range holds
    15000 events, between 12000 and the cap, yet the first midpoint is the start
    itself and the planner returns the start, a range of 0 events.  The same
    happens four days ahead: the two-day range exceeds the cap, the window
    shrinks to one day, and the one-day range is never counted. *)
Theorem C1_one_day_range_is_never_counted :
  let K := 15000 in
  let start_date := GetData.jan_1 2020 in
  GetData.count_of (GetData.synthetic K) start_date (start_date + 1) = inr 15000 /\
  GetData.find_optimal_end_date (GetData.synthetic K) start_date (start_date + 1)
    = Returns start_date /\
  GetData.find_optimal_end_date (GetData.synthetic K) start_date (start_date + 4)
    = Returns start_date /\
  GetData.count_of (GetData.synthetic K) start_date start_date = inr 0.
Proof. vm_compute. done. Qed.

(** C2. When every end after the start, up to the maximum end, is counted
    above the cap of 20000 events, the planner returns the start itself: the
    search stops with the fuel it is given, and no larger amount of fuel
    changes the result. *)
Theorem C2_planner_returns_start_when_nothing_fits
    (r : GetData.remote) (start_date max_end_date : GetData.date) :
  (forall e, start_date < e <= max_end_date ->
     exists count, GetData.count_of r start_date e = inr count /\
                   GetData.MAX_EVENTS < count) ->
  GetData.find_optimal_end_date r start_date max_end_date = Returns start_date /\
  forall fuel,
    (S (GetData.window {| GetData.left := start_date; GetData.right := max_end_date;
                          GetData.best_end := start_date |}) <= fuel)%nat ->
    while_loop fuel (GetData.search_body r start_date)
      {| GetData.left := start_date; GetData.right := max_end_date;
         GetData.best_end := start_date |} = Returns start_date.
Proof.
  intros Hover.
  assert (Hret : GetData.find_optimal_end_date r start_date max_end_date
                 = Returns start_date).
  { destruct (find_optimal_end_date_returns r start_date max_end_date) as [e He].
    { intros e He. destruct (Hover e He) as (count & Hc & _). by exists count. }
    rewrite He. f_equal.
    destruct (find_optimal_end_date_end _ _ _ _ He) as [->|[Hb (count & Hc & Hcap)]];
      [done|].
    destruct (Hover e Hb) as (count' & Hc' & Hover'). rewrite Hc in Hc'.
    injection Hc' as ->. lia. }
  split; [done|].
  intros fuel Hfuel. rewrite <- Hret. unfold GetData.find_optimal_end_date.
  apply while_loop_more_fuel; [|done].
  apply find_optimal_end_date_runs.
Qed.

Lemma C2_planner_witness :
  GetData.find_optimal_end_date (GetData.synthetic 30000)
    (GetData.jan_1 2020) (GetData.jan_1 2020 + 30) = Returns (GetData.jan_1 2020).
Proof.
  refine (proj1 (C2_planner_returns_start_when_nothing_fits (GetData.synthetic 30000)
                   (GetData.jan_1 2020) (GetData.jan_1 2020 + 30) _)).
  intros e He. exists ((e - GetData.jan_1 2020) * 30000). split; [reflexivity|].
  unfold GetData.MAX_EVENTS. lia.
Defined.

(** ** The acquisition driver *)

Section DriverProps.
Import GetData.
Variable samples : limit.
Variable r : remote.
Variable final_date : date.

(** The loop test [current_date < final_date and total < SAMPLES]. *)
Lemma loop_test_false st :
  (current_date st <? final_date) && below (total_samples_collected st) samples = false
  <-> final_date <= current_date st \/ reached (total_samples_collected st) samples = true.
Proof.
  unfold reached. rewrite andb_false_iff, Z.ltb_ge, negb_true_iff. tauto.
Qed.


(** A pass that does not leave the state as it is has planned a chunk and
    moved [current_date] to the day after its end, one day or more ahead; it
    breaks exactly when the sample target is then reached. *)
Lemma chunk_body_advances st x :
  chunk_body samples r final_date st = Returns x ->
  x = Break st /\
    (final_date <= current_date st \/
     reached (total_samples_collected st) samples = true) \/
  current_date st < final_date /\
  reached (total_samples_collected st) samples = false /\
  exists st' optimal_end,
    find_optimal_end_date r (current_date st) final_date = Returns optimal_end /\
    current_date st <= optimal_end /\
    current_date st' = optimal_end + 1 /\
    (x = Continue st' /\ reached (total_samples_collected st') samples = false \/
     x = Break st' /\ reached (total_samples_collected st') samples = true).
Proof.
  unfold chunk_body.
  destruct (_ && _) eqn:Htest.
  - intros Hx. right. apply andb_true_iff in Htest as [Hlt Hbelow].
    apply Z.ltb_lt in Hlt. split; [done|]. split; [unfold reached; by rewrite Hbelow|].
    destruct (find_optimal_end_date _ _ _) as [e| |] eqn:Hfind; simpl in Hx; try done.
    destruct (count_of r _ _) as [|c]; simpl in Hx; [done|].
    unfold download_data in Hx. destruct (query_of r _ _) as [|t]; simpl in Hx; [done|].
    assert (current_date st <= e).
    { destruct (find_optimal_end_date_end _ _ _ _ Hfind) as [->|[? _]]; lia. }
    destruct (reached _ _) eqn:Hreached; injection Hx as <-.
    + eexists _, e. split; [done|]. split; [done|]. split; [|right; by split]. done.
    + eexists _, e. split; [done|]. split; [done|]. split; [|left; by split]. done.
  - intros [= <-]. left. split; [done|]. by apply loop_test_false.
Qed.

Lemma chunk_body_continue st st' :
  chunk_body samples r final_date st = Returns (Continue st') ->
  current_date st < final_date /\ current_date st + 1 <= current_date st'.
Proof.
  intros Hb. destruct (chunk_body_advances st _ Hb)
    as [[? _]|(Hlt & _ & st'' & e & _ & He & Hcur & [[[= <-] _]|[? _]])]; try done.
  lia.
Qed.


(** Where the driver stops, the terminal condition holds, and the date has
    not moved back. *)
Lemma download_loop_stops st st' :
  download_loop samples r final_date st = Returns st' ->
  (final_date <= current_date st' \/
   reached (total_samples_collected st') samples = true) /\
  current_date st <= current_date st'.
Proof.
  unfold download_loop.
  apply (while_loop_post (chunk_body samples r final_date) (remaining final_date)
           (fun s => current_date st <= current_date s)
           (fun s' => (final_date <= current_date s' \/
                       reached (total_samples_collected s') samples = true) /\
                      current_date st <= current_date s')); [| |lia].
  - intros s s' Hs Hb. apply chunk_body_continue in Hb. unfold remaining. lia.
  - intros s s' Hs Hb. destruct (chunk_body_advances s _ Hb)
      as [[[= <-] ?]|(Hlt & _ & st'' & e & _ & He & Hcur & [[? _]|[[= <-] ?]])];
      try done.
    split; [by right | lia].
Qed.

End DriverProps.



(** ** Dictionaries *)

Section Dict.
Context {V : Type}.
Implicit Types (d : list (string * V)) (k : string) (v : V).

Lemma str_in_keys k d :
  str_in k (dict_keys d) = match dict_get k d with Some _ => true | None => false end.
Proof.
  induction d as [|[k' v'] d IH]; [done|].
  unfold str_in, dict_keys in *. simpl. by destruct (String.eqb k k').
Qed.

Lemma str_in_true k l : str_in k l = true <-> k ∈ l.
Proof.
  unfold str_in. rewrite existsb_exists, list_elem_of_In. split.
  - intros (x & Hx & Heq). by apply String.eqb_eq in Heq as ->.
  - intros Hk. exists k. split; [done | apply String.eqb_refl].
Qed.

Lemma dict_get_set_eq k v d : dict_get k (dict_set k v d) = Some v.
Proof.
  induction d as [|[k' v'] d IH]; simpl; [by rewrite String.eqb_refl|].
  destruct (String.eqb k k') eqn:Hk; simpl; by rewrite Hk.
Qed.

Lemma dict_get_set_ne k k' v d :
  k <> k' -> dict_get k' (dict_set k v d) = dict_get k' d.
Proof.
  intros Hne. induction d as [|[k'' v''] d IH]; simpl.
  - apply String.eqb_neq in Hne. by rewrite String.eqb_sym, Hne.
  - destruct (String.eqb k k'') eqn:Hk; simpl; [|by rewrite IH].
    apply String.eqb_eq in Hk as <-.
    apply String.eqb_neq in Hne. by rewrite String.eqb_sym, Hne.
Qed.

Lemma dict_get_Some_elem k v d : dict_get k d = Some v -> (k, v) ∈ d.
Proof.
  induction d as [|[k' v'] d IH]; simpl; [done|].
  destruct (String.eqb k k') eqn:Hk.
  - apply String.eqb_eq in Hk as ->. intros [= ->]. by left.
  - intros Hd. right. by apply IH.
Qed.

Lemma dict_get_None_keys k d : dict_get k d = None <-> k ∉ dict_keys d.
Proof.
  rewrite <- str_in_true, str_in_keys. by destruct (dict_get k d).
Qed.

(** With distinct keys, an item is what its key looks up. *)
Lemma dict_get_NoDup k v d :
  NoDup (dict_keys d) -> (k, v) ∈ d -> dict_get k d = Some v.
Proof.
  induction d as [|[k' v'] d IH]; simpl; [by intros _ ?%elem_of_nil|].
  intros [Hk' Hnd]%NoDup_cons [[= -> ->]|Hin]%elem_of_cons.
  - by rewrite String.eqb_refl.
  - destruct (String.eqb k k') eqn:Hk; [|by apply IH].
    apply String.eqb_eq in Hk as ->. destruct Hk'.
    apply list_elem_of_fmap. by exists (k', v).
Qed.

Lemma dict_keys_set k v d :
  dict_keys (dict_set k v d)
  = if str_in k (dict_keys d) then dict_keys d else dict_keys d ++ [k].
Proof.
  induction d as [|[k' v'] d IH]; [done|].
  unfold str_in, dict_keys in *. simpl.
  destruct (String.eqb k k') eqn:Hk; simpl; [done|].
  rewrite IH. by destruct (existsb _ _).
Qed.

Lemma dict_set_NoDup k v d : NoDup (dict_keys d) -> NoDup (dict_keys (dict_set k v d)).
Proof.
  intros Hnd. rewrite dict_keys_set. destruct (str_in k (dict_keys d)) eqn:Hk; [done|].
  apply NoDup_app. split; [done|]. split; [|apply NoDup_singleton].
  intros x Hx ->%list_elem_of_singleton. apply str_in_true in Hx. congruence.
Qed.
End Dict.

(** ** The event counter *)

(** C8. On a response that passes the status check: a body that [int] reads,
    once stripped, is returned as that integer; a body that [int] refuses and
    that decodes to an object with a [count] entry yields that entry as the
    result; every other body makes the call raise (an object without [count],
    a body that is not JSON, a JSON value that is not an object). *)
Theorem C8_get_event_count_response_shapes `{PyLib} (resp : GetData.response) :
  GetData.status resp < 400 ->
  (forall n, int_of_str (str_strip (GetData.text resp)) = Some n ->
     GetData.get_event_count resp = Returns (VInt n)) /\
  (int_of_str (str_strip (GetData.text resp)) = None ->
     (forall kvs count,
        json_loads (GetData.text resp) = Some (VDict kvs) ->
        dict_get "count" kvs = Some count ->
        GetData.get_event_count resp = Returns count) /\
     (forall kvs,
        json_loads (GetData.text resp) = Some (VDict kvs) ->
        dict_get "count" kvs = None ->
        GetData.get_event_count resp
        = Raises (ValueError "Count not found in error response")) /\
     (json_loads (GetData.text resp) = None ->
        GetData.get_event_count resp
        = Raises (ValueError "Invalid response from count API")) /\
     (forall v,
        json_loads (GetData.text resp) = Some v -> (forall kvs, v <> VDict kvs) ->
        exists e, GetData.get_event_count resp = Raises e)).
Proof.
  intros Hok. unfold GetData.get_event_count, GetData.raise_for_status.
  assert ((400 <=? GetData.status resp) = false) as -> by (by apply Z.leb_gt).
  simpl. split.
  - by intros n ->.
  - intros ->. repeat split.
    + intros kvs count -> Hcount. simpl. by rewrite str_in_keys, Hcount.
    + intros kvs -> Hcount. simpl. by rewrite str_in_keys, Hcount.
    + by intros ->.
    + intros v -> Hv. destruct v as [| | | | |s|l|kvs]; simpl; eauto.
      * destruct (substring_of _ _); simpl; eauto.
      * destruct (existsb _ _); simpl; eauto.
      * by destruct (Hv kvs).
Qed.

Lemma C8_get_event_count_witness :
  GetData.get_event_count (H := Fixtures.double)
    {| GetData.status := 200; GetData.text := " 1234 " |} = Returns (VInt 1234) /\
  GetData.get_event_count (H := Fixtures.double)
    {| GetData.status := 200; GetData.text := Fixtures.count_body |}
  = Returns (VInt 25000) /\
  exists e, GetData.get_event_count (H := Fixtures.double)
              {| GetData.status := 200; GetData.text := "<html>Bad Request</html>" |}
            = Raises e.
Proof.
  split; [|split].
  - refine (proj1 (C8_get_event_count_response_shapes (H := Fixtures.double)
                     {| GetData.status := 200; GetData.text := " 1234 " |} _) 1234 _);
      [simpl; lia | reflexivity].
  - refine (proj1 (proj2 (C8_get_event_count_response_shapes (H := Fixtures.double)
                     {| GetData.status := 200; GetData.text := Fixtures.count_body |} _) _)
                  [("count"%string, VInt 25000)] (VInt 25000) _ _);
      [simpl; lia | reflexivity | reflexivity | reflexivity].
  - exists (ValueError "Invalid response from count API").
    refine (proj1 (proj2 (proj2 (proj2 (C8_get_event_count_response_shapes
              (H := Fixtures.double)
              {| GetData.status := 200; GetData.text := "<html>Bad Request</html>" |}
              _) _))) _); [simpl; lia | reflexivity | reflexivity].
Defined.

(** ** The feature projection *)

Section ParseFeature.
Import JoinData.

(** What [copy_items] leaves under each key. *)
Lemma copy_items_get its parsed k :
  NoDup (dict_keys its) ->
  dict_get k (copy_items its parsed)
  = if str_in k avoid_keys then dict_get k parsed
    else match dict_get k its with
         | Some v => Some v
         | None => dict_get k parsed
         end.
Proof.
  unfold copy_items. revert parsed.
  induction its as [|[k0 v0] its IH]; intros parsed Hnd;
    cbn [fold_left dict_get fst snd].
  - by destruct (str_in k avoid_keys).
  - change (NoDup (k0 :: dict_keys its)) in Hnd.
    apply NoDup_cons in Hnd as [Hk0 Hnd]. rewrite IH by done.
    destruct (str_in k avoid_keys) eqn:Hav.
    + destruct (str_in k0 avoid_keys) eqn:Hav0; [done|].
      apply dict_get_set_ne. intros ->. congruence.
    + destruct (String.eqb k k0) eqn:Hk.
      * apply String.eqb_eq in Hk as ->. rewrite Hav.
        apply dict_get_None_keys in Hk0 as ->. apply dict_get_set_eq.
      * destruct (dict_get k its); [done|].
        destruct (str_in k0 avoid_keys); [done|].
        apply dict_get_set_ne. intros ->. by rewrite String.eqb_refl in Hk.
Qed.

Lemma copy_items_NoDup its parsed :
  NoDup (dict_keys parsed) -> NoDup (dict_keys (copy_items its parsed)).
Proof.
  unfold copy_items. revert parsed.
  induction its as [|[k0 v0] its IH]; intros parsed Hnd;
    cbn [fold_left fst snd]; [done|].
  apply IH. destruct (str_in k0 avoid_keys); [done | by apply dict_set_NoDup].
Qed.

(** On a feature whose [section] holds the items [its], or is absent. *)
Lemma copy_section_entries section fkvs its parsed :
  entries section fkvs its ->
  copy_section section (VDict fkvs) parsed = Returns (copy_items its parsed).
Proof.
  unfold copy_section. simpl. rewrite str_in_keys.
  by intros [->|[-> ->]].
Qed.

Lemma section_ok_entries section fkvs :
  section_ok section fkvs = true -> exists its, entries section fkvs its.
Proof.
  unfold section_ok, entries.
  destruct (dict_get section fkvs) as [[]|]; try done; eauto.
Qed.

Lemma parse_feature_entries fkvs props geom :
  entries "properties" fkvs props -> entries "geometry" fkvs geom ->
  parse_feature (VDict fkvs) = Returns (copy_items geom (copy_items props [])).
Proof.
  intros Hprops Hgeom. unfold parse_feature.
  rewrite (copy_section_entries _ _ _ _ Hprops). simpl.
  by rewrite (copy_section_entries _ _ _ _ Hgeom).
Qed.

(** [parse_feature] returns on every feature record. *)
Lemma parse_feature_returns feature :
  is_feature feature = true ->
  exists parsed, parse_feature feature = Returns parsed.
Proof.
  destruct feature as [| | | | | | |fkvs]; try done. simpl.
  intros [Hp Hg]%andb_true_iff.
  destruct (section_ok_entries _ _ Hp) as [props Hprops].
  destruct (section_ok_entries _ _ Hg) as [geom Hgeom].
  rewrite (parse_feature_entries _ _ _ Hprops Hgeom). eauto.
Qed.
End ParseFeature.

(** C9. For a feature record whose [properties] and [geometry], where present,
    are dictionaries: [parse_feature] returns a dictionary with distinct keys
    in which no key of the denylist is bound and every other key is bound to
    its [geometry] value when [geometry] has it, else to its [properties]
    value, else to nothing.  The denylist is the ten keys listed.  On the
    example record the result holds exactly [mag], [place] and [coordinates];
    on a record with [place] in both sections the [geometry] value is kept. *)
Theorem C9_parse_feature_projection :
  (forall fkvs props geom,
     JoinData.entries "properties" fkvs props ->
     JoinData.entries "geometry" fkvs geom ->
     NoDup (dict_keys props) -> NoDup (dict_keys geom) ->
     exists parsed,
       JoinData.parse_feature (VDict fkvs) = Returns parsed /\
       NoDup (dict_keys parsed) /\
       forall k,
         dict_get k parsed
         = if str_in k JoinData.avoid_keys then None
           else match dict_get k geom with
                | Some v => Some v
                | None => dict_get k props
                end) /\
  JoinData.avoid_keys
  = ["id"; "url"; "detail"; "code"; "ids"; "sources"; "types"; "title"; "status";
     "type"]%string /\
  JoinData.parse_feature JoinData.example_feature
  = Returns [("mag", VFloat 5.1); ("place", VStr "Tokyo");
             ("coordinates", VList [VInt 1; VInt 2])]%string /\
  JoinData.parse_feature JoinData.colliding_feature
  = Returns [("place", VStr "Point"); ("mag", VFloat 5.1)]%string.
Proof.
  split; [|by vm_compute].
  intros fkvs props geom Hprops Hgeom Hndp Hndg.
  exists (JoinData.copy_items geom (JoinData.copy_items props [])).
  rewrite (parse_feature_entries _ _ _ Hprops Hgeom).
  split; [done|]. split.
  - apply copy_items_NoDup, copy_items_NoDup. constructor.
  - intros k. rewrite !copy_items_get by done. cbn [dict_get].
    by destruct (str_in k JoinData.avoid_keys), (dict_get k geom), (dict_get k props).
Qed.

Lemma C9_parse_feature_projection_witness :
  exists parsed,
    JoinData.parse_feature JoinData.example_feature = Returns parsed /\
    dict_get "id" parsed = None /\ dict_get "type" parsed = None /\
    dict_get "mag" parsed = Some (VFloat 5.1) /\
    dict_get "place" parsed = Some (VStr "Tokyo") /\
    dict_get "coordinates" parsed = Some (VList [VInt 1; VInt 2]).
Proof.
  destruct (proj1 C9_parse_feature_projection
              [("properties", VDict [("mag", VFloat 5.1); ("id", VStr "xyz");
                                     ("place", VStr "Tokyo")]);
               ("geometry", VDict [("type", VStr "Point");
                                   ("coordinates", VList [VInt 1; VInt 2])])]%string
              [("mag", VFloat 5.1); ("id", VStr "xyz"); ("place", VStr "Tokyo")]%string
              [("type", VStr "Point"); ("coordinates", VList [VInt 1; VInt 2])]%string)
    as (parsed & Hparsed & _ & Hget).
  - by left.
  - by left.
  - apply (bool_decide_unpack _). by vm_compute.
  - apply (bool_decide_unpack _). by vm_compute.
  - exists parsed. split; [exact Hparsed|]. rewrite !Hget. by vm_compute.
Defined.

(** ** The file joiner *)

Section Joiner.
Import JoinData.

Lemma separated_snoc items y :
  separated (items ++ [y])
  = separated items ++ match items with
                       | [] => [Json y]
                       | _ => [Text ("," +:+ LF); Json y]
                       end.
Proof.
  destruct items as [|x items]; [done|].
  unfold separated. rewrite <- app_comm_cons. f_equal.
  by rewrite flat_map_app.
Qed.

Lemma failed_names_app evs evs' :
  failed_names (evs ++ evs') = failed_names evs ++ failed_names evs'.
Proof. unfold failed_names. apply flat_map_app. Qed.

(** One feature record more in the output, nothing printed or counted. *)
Lemma emit_feature_lays_out st items feature :
  lays_out st items -> is_feature feature = true ->
  exists st',
    emit_feature feature st = (Returns tt, st') /\
    lays_out st' (items ++ [projection feature]) /\
    total_events st' = total_events st /\ printed st' = printed st.
Proof.
  intros [Hout Hfirst] Hfeature.
  destruct (parse_feature_returns feature Hfeature) as [parsed Hparsed].
  unfold emit_feature, projection, lift, mbind, J_bind. rewrite Hparsed.
  unfold separator, write. rewrite Hfirst.
  destruct items as [|x items]; cbn [out_f first_feature total_events printed];
    eexists; (split; [reflexivity|]); (split; [|done]);
    split; cbn [out_f first_feature]; rewrite ?Hout.
  - done.
  - done.
  - by rewrite separated_snoc, <- !app_assoc.
  - by destruct items.
Qed.

Lemma for_each_emit_lays_out l st items :
  lays_out st items -> forallb is_feature l = true ->
  exists st',
    for_each l emit_feature st = (Returns tt, st') /\
    lays_out st' (items ++ map projection l) /\
    total_events st' = total_events st /\ printed st' = printed st.
Proof.
  revert st items. induction l as [|feature l IH]; intros st items Hlay Hall.
  - exists st. by rewrite app_nil_r.
  - apply andb_true_iff in Hall as [Hfeature Hall].
    destruct (emit_feature_lays_out st items feature Hlay Hfeature)
      as (st1 & Hemit & Hlay1 & Htotal1 & Hprinted1).
    destruct (IH st1 _ Hlay1 Hall) as (st2 & Hrest & Hlay2 & Htotal2 & Hprinted2).
    exists st2. cbn [for_each]. unfold mbind, J_bind at 1. rewrite Hemit, Hrest.
    rewrite <- app_assoc in Hlay2. repeat split; [apply Hlay2..| |]; congruence.
Qed.

(** A file that decodes to a collection adds the projections of its
    features, counts them, and prints no failure. *)
Lemma process_file_collection st items f :
  lays_out st items -> is_collection f = true ->
  exists st',
    process_file f st = (Returns tt, st') /\
    lays_out st' (items ++ map projection (features_of f)) /\
    total_events st' = total_events st + Z.of_nat (length (features_of f)) /\
    failed_names (printed st') = failed_names (printed st).
Proof.
  intros Hlay. unfold is_collection, features_of, process_file.
  destruct (content f) as [e|[| | | | | | |kvs]]; try done.
  unfold lift, mbind at 1 2, J_bind at 1 2. cbn [call contains]. rewrite str_in_keys.
  destruct (dict_get "features" kvs) as [features|] eqn:Hfeatures.
  - unfold mbind at 1, J_bind at 1. cbn [getitem]. rewrite Hfeatures.
    destruct features as [| | | | | |l|]; intros Hshape;
      try (apply negb_true_iff in Hshape; rewrite Hshape;
           exists st; rewrite app_nil_r, Z.add_0_r; done).
    destruct l as [|feature l]; [exists st; by rewrite app_nil_r, Z.add_0_r|].
    cbn [truthy len]. unfold mbind at 1 2, J_bind at 1 2.
    destruct (for_each_emit_lays_out (feature :: l) st items Hlay Hshape)
      as (st1 & Hemit & Hlay1 & Htotal1 & Hprinted1).
    cbn [emit_features]. rewrite Hemit.
    unfold count_events, print. eexists. split; [reflexivity|].
    cbn [out_f first_feature total_events printed].
    split; [apply Hlay1|]. split; [congruence|].
    by rewrite failed_names_app, Hprinted1, app_nil_r.
  - intros _. exists st. by rewrite app_nil_r, Z.add_0_r.
Qed.
End Joiner.

Section JoinerFiles.
Import JoinData.

(** A file in one of the two shapes leaves the loop running: its features
    are added, and its name is printed on a failure line exactly when it
    is not JSON. *)
Lemma try_file_lays_out st items f :
  lays_out st items -> undecodable f || is_collection f = true ->
  exists st',
    try_file f st = (Returns tt, st') /\
    lays_out st' (items ++ map projection (features_of f)) /\
    total_events st' = total_events st + Z.of_nat (length (features_of f)) /\
    failed_names (printed st')
    = failed_names (printed st) ++ (if undecodable f then [name f] else []).
Proof.
  intros Hlay Hshape. unfold try_file.
  destruct (undecodable f) eqn:Hund.
  - unfold undecodable in Hund. unfold features_of, process_file.
    destruct (content f) as [[]|]; try done.
    unfold lift, mbind, J_bind. cbn [call caught]. unfold print.
    eexists. split; [reflexivity|]. cbn [out_f first_feature total_events printed].
    rewrite app_nil_r, Z.add_0_r, failed_names_app. done.
  - destruct (process_file_collection st items f Hlay Hshape)
      as (st' & -> & Hlay' & Htotal & Hfailed).
    exists st'. by rewrite app_nil_r.
Qed.

Lemma for_each_cons {A} (x : A) l (body : A -> J unit) st :
  for_each (x :: l) body st
  = match body x st with
    | (Returns _, st') => for_each l body st'
    | (Raises e, st') => (Raises e, st')
    | (OutOfFuel, st') => (OutOfFuel, st')
    end.
Proof. done. Qed.

Lemma file_pass_unfold n i f st :
  file_pass n (i, f) st
  = try_file f {| out_f := out_f st; first_feature := first_feature st;
                  total_events := total_events st;
                  printed := printed st ++ [Processing (S i) n (name f)] |}.
Proof. done. Qed.

Lemma files_loop_lays_out files n i st items :
  lays_out st items ->
  forallb (fun f => undecodable f || is_collection f) files = true ->
  exists st',
    for_each (enumerate_from i files) (file_pass n) st = (Returns tt, st') /\
    lays_out st' (items ++ map projection (flat_map features_of files)) /\
    total_events st'
    = total_events st + Z.of_nat (length (flat_map features_of files)) /\
    failed_names (printed st')
    = failed_names (printed st) ++ map name (List.filter undecodable files).
Proof.
  revert i st items. induction files as [|f files IH]; intros i st items Hlay Hall.
  - exists st. by rewrite !app_nil_r, Z.add_0_r.
  - apply andb_true_iff in Hall as [Hf Hall].
    cbn [enumerate_from flat_map List.filter].
    rewrite for_each_cons, file_pass_unfold.
    set (st0 := {| out_f := out_f st; first_feature := first_feature st;
                   total_events := total_events st;
                   printed := printed st ++ [Processing (S i) n (name f)] |}).
    destruct (try_file_lays_out st0 items f Hlay Hf)
      as (st1 & -> & Hlay1 & Htotal1 & Hfailed1).
    destruct (IH (S i) st1 _ Hlay1 Hall) as (st2 & -> & Hlay2 & Htotal2 & Hfailed2).
    exists st2. split; [done|].
    rewrite <- app_assoc, <- map_app in Hlay2. split; [done|].
    rewrite length_app, Nat2Z.inj_add. split; [subst st0; simpl in *; lia|].
    rewrite Hfailed2, Hfailed1. subst st0. cbn [printed].
    rewrite failed_names_app, app_nil_r, <- app_assoc.
    by destruct (undecodable f).
Qed.

(** The whole run on files in the two shapes. *)
Lemma join_data_files_lays_out files :
  forallb (fun f => undecodable f || is_collection f) files = true ->
  exists st,
    join_data_files files = (Returns tt, st) /\
    out_f st = array_of (map projection (flat_map features_of files)) /\
    total_events st = Z.of_nat (length (flat_map features_of files)) /\
    failed_names (printed st) = map name (List.filter undecodable files).
Proof.
  intros Hall. unfold join_data_files, join_body.
  set (st0 := {| out_f := [Text ("[" +:+ LF)]; first_feature := true;
                 total_events := 0; printed := [Found (length files)] |}).
  destruct (files_loop_lays_out files (length files) 0 st0 [] (conj eq_refl eq_refl) Hall)
    as (st1 & Hloop & [Hout1 Hfirst1] & Htotal1 & Hfailed1).
  unfold mbind, J_bind, print at 1, write at 1.
  cbn [out_f first_feature total_events printed app]. fold st0. rewrite Hloop.
  unfold write, report, print.
  eexists. split; [reflexivity|]. cbn [out_f first_feature total_events printed].
  split; [by rewrite Hout1|]. split; [by rewrite Htotal1|].
  by rewrite failed_names_app, Hfailed1, app_nil_r.
Qed.

(** Files that are not JSON contribute no feature. *)
Lemma decodable_keep_features files :
  flat_map features_of (List.filter (fun f => negb (undecodable f)) files)
  = flat_map features_of files.
Proof.
  induction files as [|f files IH]; [done|]. cbn [List.filter flat_map].
  destruct (undecodable f) eqn:Hund; cbn [negb flat_map]; rewrite IH; [|done].
  unfold undecodable in Hund. unfold features_of at 2.
  by destruct (content f) as [[]|].
Qed.

Lemma decodable_keep_shape files :
  forallb (fun f => undecodable f || is_collection f) files = true ->
  forallb (fun f => undecodable f || is_collection f)
    (List.filter (fun f => negb (undecodable f)) files) = true.
Proof.
  induction files as [|f files IH]; [done|]. cbn [forallb List.filter].
  intros [Hf Hall]%andb_true_iff.
  destruct (negb (undecodable f)); cbn [forallb]; rewrite ?Hf; by apply IH.
Qed.
End JoinerFiles.

(** ** Feature synthesis *)

Section Synthesis.
Import Inference.
Local Open Scope Q_scope.

Lemma Qle_bool_true a b : a <= b -> Qle_bool a b = true.
Proof. apply Qle_bool_iff. Qed.

Lemma Qle_bool_false a b : b < a -> Qle_bool a b = false.
Proof.
  intros Hlt. destruct (Qle_bool a b) eqn:Hle; [|done].
  apply Qle_bool_iff in Hle. lra.
Qed.

Lemma Qle_bool_false_lt a b : Qle_bool a b = false -> b < a.
Proof.
  intros Hf. destruct (Qlt_le_dec b a) as [|Hle]; [done|].
  apply Qle_bool_iff in Hle. congruence.
Qed.

Lemma Qfloor_nonneg q : 0 <= q -> (0 <= Qfloor q)%Z.
Proof. intros Hq. rewrite <- (Qfloor_Z 0). by apply Qfloor_resp_le. Qed.

Lemma Qceiling_nonpos q : q <= 0 -> (Qceiling q <= 0)%Z.
Proof. intros Hq. rewrite <- (Qceiling_Z 0). by apply Qceiling_resp_le. Qed.

(** Truncation toward zero is monotone. *)
Lemma Qtrunc_mono q1 q2 : q1 <= q2 -> (Qtrunc q1 <= Qtrunc q2)%Z.
Proof.
  intros Hle. unfold Qtrunc.
  destruct (Qle_bool 0 q1) eqn:H1, (Qle_bool 0 q2) eqn:H2.
  - by apply Qfloor_resp_le.
  - apply Qle_bool_iff in H1. apply Qle_bool_false_lt in H2. lra.
  - apply Qle_bool_iff in H2. apply Qle_bool_false_lt in H1.
    assert (Qceiling q1 <= 0)%Z by (apply Qceiling_nonpos; lra).
    assert (0 <= Qfloor q2)%Z by (by apply Qfloor_nonneg). lia.
  - by apply Qceiling_resp_le.
Qed.

(** A positive integer threshold is met by the truncation exactly when it is
    met by the number. *)
Lemma Zleb_Qtrunc z q : (0 < z)%Z -> (z <=? Qtrunc q)%Z = Qle_bool (inject_Z z) q.
Proof.
  intros Hz. unfold Qtrunc.
  pose proof Hz as Hz'. rewrite Zlt_Qlt in Hz'. change (inject_Z 0) with 0 in Hz'.
  destruct (Qle_bool (inject_Z z) q) eqn:Hzq.
  - apply Qle_bool_iff in Hzq. apply Z.leb_le.
    rewrite Qle_bool_true by lra.
    rewrite <- (Qfloor_Z z). by apply Qfloor_resp_le.
  - apply Z.leb_gt. apply Qle_bool_false_lt in Hzq.
    destruct (Qle_bool 0 q) eqn:H0.
    + destruct (Z_lt_le_dec (Qfloor q) z) as [|Hge]; [done|].
      exfalso. pose proof (Qfloor_le q). rewrite Zle_Qle in Hge. lra.
    + apply Qle_bool_false_lt in H0.
      assert (Qceiling q <= 0)%Z by (apply Qceiling_nonpos; lra). lia.
Qed.
End Synthesis.

Section Alert.
Import Inference.
Local Open Scope Q_scope.

(** Settle every comparison with the magnitude that the range at hand decides. *)
Ltac settle_comparisons :=
  repeat match goal with
         | |- context [Qle_bool ?a ?b] =>
             first [ rewrite (Qle_bool_true a b) by (unfold inject_Z; lra)
                   | rewrite (Qle_bool_false a b) by (unfold inject_Z; lra) ]
         end.

(** The cascade, read off the magnitude alone: the depth never decides. *)
Lemma alert_of_tiers magnitude depth :
  alert_of magnitude depth
  = (if Qle_bool 7 magnitude then 4
     else if Qle_bool 6 magnitude then 3
     else if Qle_bool 3 magnitude then 2
     else if Qle_bool 1 magnitude then 1
     else 0)%Z.
Proof.
  unfold alert_of, alert_cascade, sig_of, mmi_of, cdi_of.
  rewrite !Zleb_Qtrunc by lia.
  destruct (Qlt_le_dec magnitude 1);
    [|destruct (Qlt_le_dec magnitude 3);
      [|destruct (Qlt_le_dec magnitude 5);
        [|destruct (Qlt_le_dec magnitude 5.5);
          [|destruct (Qlt_le_dec magnitude 6);
            [|destruct (Qlt_le_dec magnitude 6.5);
              [|destruct (Qlt_le_dec magnitude 7)]]]]]];
    settle_comparisons; reflexivity.
Qed.

Lemma alert_of_mono m1 m2 d1 d2 : m1 <= m2 -> (alert_of m1 d1 <= alert_of m2 d2)%Z.
Proof.
  intros Hle. rewrite !alert_of_tiers.
  destruct (Qle_bool 7 m1) eqn:H7; [apply Qle_bool_iff in H7; by settle_comparisons|].
  destruct (Qle_bool 6 m1) eqn:H6;
    [apply Qle_bool_iff in H6; destruct (Qle_bool 7 m2); [done|];
     by settle_comparisons|].
  destruct (Qle_bool 3 m1) eqn:H3;
    [apply Qle_bool_iff in H3; destruct (Qle_bool 7 m2), (Qle_bool 6 m2); try done;
     by settle_comparisons|].
  destruct (Qle_bool 1 m1) eqn:H1;
    [apply Qle_bool_iff in H1;
     destruct (Qle_bool 7 m2), (Qle_bool 6 m2), (Qle_bool 3 m2); try done;
     by settle_comparisons|].
  by destruct (Qle_bool 7 m2), (Qle_bool 6 m2), (Qle_bool 3 m2), (Qle_bool 1 m2).
Qed.

(** The vector, entry by entry. *)
Lemma generate_seismic_features_entries env magnitude latitude longitude :
  generate_seismic_features env magnitude latitude longitude
  = <["magType" := VInt 24]>
    (<["tsunami" := VInt 0]>
     (<["alert" := VInt (alert_of magnitude (uniform_0_5 env))]>
      (<["sig" := VInt (sig_of magnitude)]>
       (<["felt" := VInt (Z.max 0 (Qtrunc ((magnitude - 3) * 1000)))]>
        (<["mmi" := VFloat (mmi_of magnitude)]>
         (<["cdi" := VFloat (cdi_of magnitude)]>
          (<["depth" := VFloat (uniform_0_5 env)]>
           (<["time" := VInt (now_ms env)]>
            (<["longitude" := VFloat longitude]>
             (<["latitude" := VFloat latitude]>
              (<["mag" := VFloat magnitude]> ∅))))))))))).
Proof. reflexivity. Qed.

Lemma alert_entry env magnitude latitude longitude :
  generate_seismic_features env magnitude latitude longitude !! "alert"
  = Some (VInt (alert_of magnitude (uniform_0_5 env))).
Proof. rewrite generate_seismic_features_entries. by simplify_map_eq. Qed.

Lemma time_entry env magnitude latitude longitude :
  generate_seismic_features env magnitude latitude longitude !! "time"
  = Some (VInt (now_ms env)).
Proof. rewrite generate_seismic_features_entries. by simplify_map_eq. Qed.

Lemma depth_entry env magnitude latitude longitude :
  generate_seismic_features env magnitude latitude longitude !! "depth"
  = Some (VFloat (uniform_0_5 env)).
Proof. rewrite generate_seismic_features_entries. by simplify_map_eq. Qed.

(** Apart from [depth] and [time], the vector is a function of the request. *)
Lemma generate_seismic_features_agree env1 env2 magnitude latitude longitude k :
  k <> "depth"%string -> k <> "time"%string ->
  generate_seismic_features env1 magnitude latitude longitude !! k
  = generate_seismic_features env2 magnitude latitude longitude !! k.
Proof.
  intros Hd Ht. rewrite !generate_seismic_features_entries.
  rewrite !lookup_insert. rewrite !(alert_of_tiers magnitude).
  repeat case_decide; congruence.
Qed.
End Alert.

(** C5. For every depth [d], every pair of clock readings and coordinates, and
    all magnitudes [m1 <= m2]: the vectors synthesized at [m1] and at [m2] with
    depth [d] each carry an alert tier, and the tier at [m1] is at most the
    tier at [m2]. *)
Theorem C5_alert_monotone_in_magnitude
    (now1 now2 : Z) (d m1 m2 latitude longitude : Q) :
  (m1 <= m2)%Q ->
  exists a1 a2,
    Inference.generate_seismic_features
      {| Inference.now_ms := now1; Inference.uniform_0_5 := d |} m1 latitude longitude
      !! "alert" = Some (VInt a1) /\
    Inference.generate_seismic_features
      {| Inference.now_ms := now2; Inference.uniform_0_5 := d |} m2 latitude longitude
      !! "alert" = Some (VInt a2) /\
    a1 <= a2.
Proof.
  intros Hle. eexists _, _. rewrite !alert_entry.
  split; [done|]. split; [done|]. by apply alert_of_mono.
Qed.

Lemma C5_alert_monotone_witness :
  exists a1 a2,
    Inference.generate_seismic_features
      {| Inference.now_ms := 1700000000000; Inference.uniform_0_5 := 2.5 |}
      5.2 35.6762 139.6503 !! "alert" = Some (VInt a1) /\
    Inference.generate_seismic_features
      {| Inference.now_ms := 1700000000500; Inference.uniform_0_5 := 2.5 |}
      6.7 35.6762 139.6503 !! "alert" = Some (VInt a2) /\
    a1 <= a2.
Proof.
  apply (C5_alert_monotone_in_magnitude 1700000000000 1700000000500 2.5 5.2 6.7
           35.6762 139.6503).
  unfold Qle. simpl. lia.
Defined.

(** C7, as amended.  For every list of chunk files each of which either is
    text that is not JSON ([json.load] raises [JSONDecodeError]) or decodes to
    an object whose [features], where present and not empty, is a list of
    feature records: [join_data_files] returns; the output file holds one
    array, laid out as an opening bracket, the [json.dump] of the projections
    by [parse_feature] of the features of all the files, in order and separated
    by commas, and a closing bracket; the events counted are those features;
    the failure lines printed name exactly the files that are not JSON, in
    order (a decoded file without features is passed over without one); and
    the output is what the decoded files alone would give. *)
Theorem C7_join_of_decodable_collections (files : list JoinData.file) :
  forallb (fun f => JoinData.undecodable f || JoinData.is_collection f) files = true ->
  exists st,
    JoinData.join_data_files files = (Returns tt, st) /\
    JoinData.out_f st
    = JoinData.array_of
        (map JoinData.projection (flat_map JoinData.features_of files)) /\
    JoinData.total_events st
    = Z.of_nat (length (flat_map JoinData.features_of files)) /\
    JoinData.failed_names (JoinData.printed st)
    = map JoinData.name (List.filter JoinData.undecodable files) /\
    JoinData.out_f st
    = JoinData.out_f
        (snd (JoinData.join_data_files
                (List.filter (fun f => negb (JoinData.undecodable f)) files))).
Proof.
  intros Hshape.
  destruct (join_data_files_lays_out files Hshape) as (st & Hrun & Hout & Htotal & Hfailed).
  destruct (join_data_files_lays_out _ (decodable_keep_shape files Hshape))
    as (st' & Hrun' & Hout' & _).
  exists st. repeat split; try done.
  rewrite Hrun'. cbn [snd]. by rewrite Hout, Hout', decodable_keep_features.
Qed.

Lemma C7_join_three_files_witness :
  exists st,
    JoinData.join_data_files [Fixtures.january; Fixtures.february; Fixtures.march]
    = (Returns tt, st) /\
    JoinData.out_f st
    = JoinData.array_of
        [VDict [("mag", VFloat 5.1); ("place", VStr "Tokyo");
                ("coordinates", VList [VInt 1; VInt 2])];
         VDict [("place", VStr "Point"); ("mag", VFloat 5.1)];
         VDict [("mag", VFloat 4.7)]]%string /\
    JoinData.failed_names (JoinData.printed st) = [JoinData.name Fixtures.february].
Proof.
  destruct (C7_join_of_decodable_collections
              [Fixtures.january; Fixtures.february; Fixtures.march] eq_refl)
    as (st & Hrun & Hout & _ & Hfailed & _).
  exists st. split; [exact Hrun|]. split; [exact Hout | exact Hfailed].
Defined.

(** C7, as stated, fails on three inputs.  A file that decodes to an object
    without [features] is passed over and no failure line is printed for it.
    A file that decodes to [null] is not passed over: the membership test on
    it raises a [TypeError], which the handler does not catch; the call ends
    there, the output file holds the features of the file before it and no
    closing bracket, and the file after it is never read.  A file whose bytes
    are not UTF-8 ends the call in the same way: reading it raises a
    [UnicodeDecodeError], which the handler does not catch either. *)
Lemma C7_counterexample :
  (JoinData.features_of Fixtures.april = [] /\
   fst (JoinData.join_data_files [Fixtures.april]) = Returns tt /\
   JoinData.failed_names (JoinData.printed (snd (JoinData.join_data_files [Fixtures.april])))
   = []) /\
  (fst (JoinData.join_data_files [Fixtures.january; Fixtures.may; Fixtures.march])
   = Raises (TypeError "argument of type 'NoneType' is not iterable") /\
   JoinData.out_f
     (snd (JoinData.join_data_files [Fixtures.january; Fixtures.may; Fixtures.march]))
   = JoinData.Text ("[" +:+ LF)
       :: JoinData.separated
            (map JoinData.projection (JoinData.features_of Fixtures.january))) /\
  (JoinData.caught
     (UnicodeDecodeError
        "'utf-8' codec can't decode byte 0xff in position 0: invalid start byte")
   = false /\
   fst (JoinData.join_data_files [Fixtures.january; Fixtures.june; Fixtures.march])
   = Raises (UnicodeDecodeError
               "'utf-8' codec can't decode byte 0xff in position 0: invalid start byte") /\
   JoinData.out_f
     (snd (JoinData.join_data_files [Fixtures.january; Fixtures.june; Fixtures.march]))
   = JoinData.Text ("[" +:+ LF)
       :: JoinData.separated
            (map JoinData.projection (JoinData.features_of Fixtures.january))).
Proof. by vm_compute. Qed.

(** ** Refinement by the nearest example *)

Section Refinement.
Import Inference.
Implicit Types (s : gmap string value) (o : Series) (k : string) (v : value).









Context `{PyLib}.

(** The matcher answers with rows of the two frames. *)
Lemma find_closest_in_cluster_series cluster_id normalized clustered_data
    original_data n o d :
  find_closest_in_cluster cluster_id normalized clustered_data original_data
  = Returns (Some (n, o, d)) ->
  exists i row, o = series_of original_data i row.
Proof.
  unfold find_closest_in_cluster.
  destruct (select_cluster _ _) as [[|lr cluster_data]| |]; simpl; try done.
  do 3 (match goal with
        | |- context [mbind _ ?m] => destruct m; simpl; try done
        end).
  destruct (nth_error _ _) as [[name row]|]; [|done].
  destruct (nth_error (rows original_data) name) as [orow|]; [|done].
  intros [= <- <- <-]. eauto.
Qed.


(** How a returned triple came about. *)
Lemma predict_seismic_impact_triple env files mass_kg velocity_ms latitude longitude
    features energy cluster :
  predict_seismic_impact env files mass_kg velocity_ms latitude longitude
  = Returns (Prediction features energy cluster) ->
  exists magnitude kmeans scaler model_info clustered_data original_data full normalized,
    energy = calculate_kinetic_energy mass_kg velocity_ms /\
    energy_to_magnitude energy = Returns magnitude /\
    kmeans_model files = Some kmeans /\ scaler_pkl files = Some scaler /\
    model_info_pkl files = Some model_info /\
    clustered_earthquakes files = Some clustered_data /\
    dataset files = Some original_data /\
    infer kmeans scaler model_info
      (generate_seismic_features env magnitude latitude longitude)
    = Returns (full, cluster, normalized) /\
    (find_closest_in_cluster cluster normalized clustered_data original_data
     = Returns None /\
     features = generate_seismic_features env magnitude latitude longitude \/
     exists n o d,
       find_closest_in_cluster cluster normalized clustered_data original_data
       = Returns (Some (n, o, d)) /\
       features
       = refine (generate_seismic_features env magnitude latitude longitude) o).
Proof.
  unfold predict_seismic_impact.
  destruct (energy_to_magnitude _) as [magnitude| |] eqn:Hmag; simpl; try done.
  destruct (kmeans_model files) as [kmeans|]; [|done].
  destruct (scaler_pkl files) as [scaler|]; [|done].
  destruct (model_info_pkl files) as [model_info|]; [|done].
  destruct (clustered_earthquakes files) as [clustered_data|]; [|done].
  destruct (dataset files) as [original_data|]; [|done].
  destruct (infer _ _ _ _) as [[[full c] normalized]| |] eqn:Hinfer; simpl; try done.
  destruct (find_closest_in_cluster _ _ _ _) as [[[[n o] d]|]| |] eqn:Hclosest;
    simpl; try done; intros [= <- <- <-];
    exists magnitude, kmeans, scaler, model_info, clustered_data, original_data,
           full, normalized; repeat split; try done.
  - right. by exists n, o, d.
  - by left.
Qed.
End Refinement.

(** ** The nearest example *)

Section NearestCoverage.
Import Inference Specs.
Local Open Scope Q_scope.

Lemma nth_error_lookup {A} (l : list A) i : nth_error l i = l !! i.
Proof. revert i. induction l as [|x l IH]; intros [|i]; simpl; auto. Qed.






Context `{PyLib}.


End NearestCoverage.



(** ** The clock and the cluster *)

Section Clock.
Import Inference.
Context `{PyLib}.

(** One step of the loop that fills the vector. *)
Lemma assemble_cons_inv feature rest features_to_normalize normalized_subset
    synthetic_features idx full :
  assemble (feature :: rest) features_to_normalize normalized_subset
    synthetic_features idx = Returns full ->
  exists x idx' xs,
    assemble rest features_to_normalize normalized_subset synthetic_features idx'
    = Returns xs /\
    full = x :: xs /\
    (str_in feature features_to_normalize = false ->
     exists v, synthetic_features !! feature = Some v /\ as_float v = Returns x).
Proof.
  simpl. destruct (str_in feature features_to_normalize).
  - destruct (at_index _ _) as [x| |]; simpl; try done.
    destruct (assemble rest _ _ _ _) as [xs| |] eqn:Hrest; simpl; try done.
    intros [= <-]. by exists x, (S idx), xs.
  - unfold lookup_feature.
    destruct (synthetic_features !! feature) as [v|]; simpl; try done.
    destruct (as_float v) as [x| |] eqn:Hx; simpl; try done.
    destruct (assemble rest _ _ _ _) as [xs| |] eqn:Hrest; simpl; try done.
    intros [= <-]. exists x, idx, xs. repeat split; try done. eauto.
Qed.

(** When [time] is not among the normalized features, the second entry of
    the vector handed to the model is the clock reading. *)
Lemma assemble_time features_to_normalize normalized_subset synthetic_features
    now idx full :
  str_in "time" features_to_normalize = false ->
  synthetic_features !! "time" = Some (VInt now) ->
  assemble all_features features_to_normalize normalized_subset synthetic_features idx
  = Returns full ->
  full !! 1%nat = Some (inject_Z now).
Proof.
  intros Htime Hnow Hfull. unfold all_features in Hfull.
  apply assemble_cons_inv in Hfull as (x0 & idx0 & xs0 & Hrest & -> & _).
  apply assemble_cons_inv in Hrest as (x1 & idx1 & xs1 & _ & -> & Hx1).
  destruct (Hx1 Htime) as (v & Hv & Hfloat).
  rewrite Hnow in Hv. injection Hv as <-. simpl in Hfloat. by injection Hfloat as <-.
Qed.

Lemma infer_time kmeans scaler model_info env magnitude latitude longitude
    features_to_normalize full cluster normalized :
  dict_get "features_to normalize" model_info = Some features_to_normalize ->
  "time" ∉ features_to_normalize ->
  infer kmeans scaler model_info
    (generate_seismic_features env magnitude latitude longitude)
  = Returns (full, cluster, normalized) ->
  full !! 1%nat = Some (inject_Z (now_ms env)) /\ predict kmeans full = inr cluster.
Proof.
  intros Hinfo Htime Hinfer. unfold infer in Hinfer. rewrite Hinfo in Hinfer.
  apply bind_Returns in Hinfer as (ftn & [= <-] & Hinfer).
  apply bind_Returns in Hinfer as (values & _ & Hinfer).
  apply bind_Returns in Hinfer as (normalized_subset & _ & Hinfer).
  apply bind_Returns in Hinfer as (full' & Hfull & Hinfer).
  apply bind_Returns in Hinfer as (c & Hpredict & Hinfer).
  apply bind_Returns in Hinfer as (n' & _ & Hinfer).
  injection Hinfer as <- <- <-. split.
  - apply (assemble_time features_to_normalize normalized_subset
             (generate_seismic_features env magnitude latitude longitude)
             (now_ms env) O full'); [| |exact Hfull].
    + destruct (str_in "time" features_to_normalize) eqn:Hs; [|done].
      by apply str_in_true in Hs.
    + apply time_entry.
  - destruct (predict kmeans full') as [e|c']; simpl in Hpredict; [done|].
    by injection Hpredict as ->.
Qed.
End Clock.

(** C10. Two vectors synthesized for the same magnitude and coordinates agree
    on every entry other than [depth] and [time], whatever the clock and the
    draw were; those two entries are the draw and the clock reading.  [time]
    is one of the twelve features assembled for the model: unless the metadata
    lists it for normalization, the second entry of the vector the model is
    asked about is the clock reading.  And the cluster is not a function of the
    request: with a model whose centres differ in [time], the same request with
    the same depth is assigned cluster 0 at one clock reading and cluster 1 at
    another. *)
Theorem C10_cluster_depends_on_the_clock :
  (forall env1 env2 magnitude latitude longitude k,
     k <> "depth"%string -> k <> "time"%string ->
     Inference.generate_seismic_features env1 magnitude latitude longitude !! k
     = Inference.generate_seismic_features env2 magnitude latitude longitude !! k) /\
  (forall env magnitude latitude longitude,
     Inference.generate_seismic_features env magnitude latitude longitude !! "time"
     = Some (VInt (Inference.now_ms env)) /\
     Inference.generate_seismic_features env magnitude latitude longitude !! "depth"
     = Some (VFloat (Inference.uniform_0_5 env))) /\
  (Inference.all_features !! 1%nat = Some "time"%string /\
   length Inference.all_features = 12%nat) /\
  (forall (L : PyLib) kmeans scaler model_info env magnitude latitude longitude
          features_to_normalize full cluster normalized,
     dict_get "features_to normalize" model_info = Some features_to_normalize ->
     "time"%string ∉ features_to_normalize ->
     Inference.infer kmeans scaler model_info
       (Inference.generate_seismic_features env magnitude latitude longitude)
     = Returns (full, cluster, normalized) ->
     full !! 1%nat = Some (inject_Z (Inference.now_ms env)) /\
     Inference.predict kmeans full = inr cluster) /\
  (exists features1 features2 energy,
     Inference.uniform_0_5 (Fixtures.at_clock 0)
     = Inference.uniform_0_5 (Fixtures.at_clock 1700000000000) /\
     Inference.predict_seismic_impact (H := Fixtures.double) (Fixtures.at_clock 0)
       Fixtures.artifacts 14000000 18000 35.6762 139.6503
     = Returns (Inference.Prediction features1 energy 0) /\
     Inference.predict_seismic_impact (H := Fixtures.double)
       (Fixtures.at_clock 1700000000000)
       Fixtures.artifacts 14000000 18000 35.6762 139.6503
     = Returns (Inference.Prediction features2 energy 1)).
Proof.
  split; [apply generate_seismic_features_agree|].
  split; [intros; split; [apply time_entry | apply depth_entry]|].
  split; [done|].
  split; [intros L; apply infer_time|].
  vm_compute. eexists _, _, _. split; [reflexivity|]. split; reflexivity.
Qed.

Lemma C10_agreement_witness :
  Inference.generate_seismic_features (Fixtures.at_clock 0) 6.8 35.6762 139.6503
    !! "alert"
  = Inference.generate_seismic_features
      {| Inference.now_ms := 1700000000000; Inference.uniform_0_5 := 4.9 |}
      6.8 35.6762 139.6503 !! "alert".
Proof.
  apply (proj1 C10_cluster_depends_on_the_clock); discriminate.
Defined.

(** ** The endpoint when an artifact is missing *)

Section LoadFailure.
Import Inference Router.
Context `{PyLib}.
Local Open Scope Q_scope.

(** A request that passes validation has a positive mass and velocity and
    coordinates in range. *)
Lemma validate_passes data :
  validate data = Returns tt ->
  0 < mass data /\ 0 < velocity data /\
  -90 <= latitude data <= 90 /\ -180 <= longitude data <= 180.
Proof.
  unfold validate.
  destruct (Qle_bool (mass data) 0) eqn:Hm; [done|].
  destruct (Qle_bool (velocity data) 0) eqn:Hv; [done|].
  destruct (Qle_bool (-90) (latitude data) && Qle_bool (latitude data) 90) eqn:Hla;
    [|done].
  destruct (Qle_bool (-180) (longitude data) && Qle_bool (longitude data) 180) eqn:Hlo;
    [|done].
  intros _. apply Qle_bool_false_lt in Hm, Hv.
  apply andb_true_iff in Hla as [?%Qle_bool_iff ?%Qle_bool_iff].
  apply andb_true_iff in Hlo as [?%Qle_bool_iff ?%Qle_bool_iff].
  done.
Qed.

(** The kinetic energy of a positive mass at a positive velocity is positive,
    so its magnitude is computed. *)
Lemma energy_to_magnitude_returns mass_kg velocity_ms :
  0 < mass_kg -> 0 < velocity_ms ->
  exists magnitude,
    energy_to_magnitude (calculate_kinetic_energy mass_kg velocity_ms)
    = Returns magnitude.
Proof.
  intros Hm Hv. unfold energy_to_magnitude, calculate_kinetic_energy.
  change (velocity_ms ^ 2) with (velocity_ms * velocity_ms).
  rewrite Qle_bool_false; [eauto|].
  repeat apply Qmult_lt_0_compat; try done.
Qed.

(** With an artifact missing, a validated request makes
    [predict_seismic_impact] return [None]; the endpoint then fails to unpack
    it and answers through its generic handler. *)
Lemma predict_when_artifact_missing env files data :
  validate data = Returns tt ->
  kmeans_model files = None \/ scaler_pkl files = None \/
  model_info_pkl files = None \/ clustered_earthquakes files = None \/
  dataset files = None ->
  predict_seismic_impact env files (mass data) (velocity data) (latitude data)
    (longitude data) = Returns NoPrediction /\
  predict env files data
  = Raises (HTTPException 500
              "Internal server error: cannot unpack non-iterable NoneType object").
Proof.
  intros Hvalid Hmissing.
  destruct (validate_passes data Hvalid) as (Hm & Hv & _).
  destruct (energy_to_magnitude_returns _ _ Hm Hv) as [magnitude Hmag].
  assert (Hnone : predict_seismic_impact env files (mass data) (velocity data)
                    (latitude data) (longitude data) = Returns NoPrediction).
  { unfold predict_seismic_impact. rewrite Hmag. cbn [mbind outcome_bind].
    destruct (kmeans_model files), (scaler_pkl files), (model_info_pkl files),
      (clustered_earthquakes files), (dataset files); try done.
    by destruct Hmissing as [?|[?|[?|[?|?]]]]. }
  split; [done|].
  unfold predict, predict_body. rewrite Hvalid. cbn [mbind outcome_bind].
  rewrite Hnone. reflexivity.
Qed.
End LoadFailure.

(** C4. The request of the end-to-end scenario passes validation.  With the
    clustering model missing from the directory, [predict_seismic_impact]
    returns [None] for it, and the endpoint answers with status 500 and the
    detail of its generic handler, reporting that [None] cannot be unpacked;
    the answer is not the one of the branch that tests the result for [None].
    This holds whatever the library functions, the clock and the draw are. *)
Theorem C4_missing_model_takes_the_generic_handler (L : PyLib) (env : Inference.Env) :
  Router.validate Fixtures.tokyo = Returns tt /\
  Inference.predict_seismic_impact env Fixtures.artifacts_without_model
    (Router.mass Fixtures.tokyo) (Router.velocity Fixtures.tokyo)
    (Router.latitude Fixtures.tokyo) (Router.longitude Fixtures.tokyo)
  = Returns Inference.NoPrediction /\
  Router.predict env Fixtures.artifacts_without_model Fixtures.tokyo
  = Raises (HTTPException 500
              "Internal server error: cannot unpack non-iterable NoneType object") /\
  Router.predict env Fixtures.artifacts_without_model Fixtures.tokyo
  <> Raises (HTTPException 500 "Prediction model failed to load or execute").
Proof.
  assert (Hvalid : Router.validate Fixtures.tokyo = Returns tt) by reflexivity.
  destruct (predict_when_artifact_missing env Fixtures.artifacts_without_model
              Fixtures.tokyo Hvalid (or_introl eq_refl)) as [Hnone Hanswer].
  split; [done|]. split; [done|]. split; [done|]. rewrite Hanswer. discriminate.
Qed.

(** ** The planner on the synthetic counter, where it does meet its target *)

Lemma planner_synthetic_target_witness :
  exists e,
    GetData.find_optimal_end_date (GetData.synthetic 100)
      (GetData.jan_1 2020) (GetData.dec_31 2020) = Returns e /\
    12000 <= (e - GetData.jan_1 2020) * 100 <= GetData.MAX_EVENTS.
Proof.
  apply (planner_synthetic_target 100 (GetData.jan_1 2020) (GetData.dec_31 2020)
           (GetData.jan_1 2020 + 150)); vm_compute; split; discriminate.
Defined.

(** * Further properties *)

(** ** The planner on any counter *)

Section PlannerCoverage.
Import GetData.

(** Two bodies that agree on the states an invariant admits run alike. *)
Lemma while_loop_agree {S R} (body body' : S -> outcome (loop_step S R))
    (Inv : S -> Prop) fuel s :
  (forall s, Inv s -> body s = body' s) ->
  (forall s s', Inv s -> body s = Returns (Continue s') -> Inv s') ->
  Inv s -> while_loop fuel body s = while_loop fuel body' s.
Proof.
  intros Hagree Hkeep. revert s. induction fuel as [|fuel IH]; intros s Hs; [done|].
  simpl. rewrite <- (Hagree s Hs).
  destruct (body s) as [[s'|e]| |] eqn:Hb; try done.
  apply IH. by apply (Hkeep s).
Qed.

(** A pass only asks for the count of its midpoint, an end after the start and
    no later than [right]. *)
Lemma search_body_agree r r' start_date max_end_date s :
  (forall e, start_date < e <= max_end_date ->
             count_of r start_date e = count_of r' start_date e) ->
  right s <= max_end_date ->
  search_body r start_date s = search_body r' start_date s.
Proof.
  intros Hsame Hright. unfold search_body.
  destruct (left s <=? right s) eqn:Hlr; [|done]. apply Z.leb_le in Hlr.
  fold (midpoint s). destruct (midpoint s <=? start_date) eqn:Hmid; [done|].
  apply Z.leb_gt in Hmid. pose proof (midpoint_between s Hlr).
  rewrite Hsame by lia. done.
Qed.

Lemma search_body_right r start_date s s' :
  search_body r start_date s = Returns (Continue s') -> right s' <= right s.
Proof.
  intros Hb. pose proof (search_body_pass r start_date s) as Hp. rewrite Hb in Hp.
  inversion Hp; subst; simpl; pose proof (midpoint_between s); lia.
Qed.
End PlannerCoverage.

(** X1. Whatever the counting service answers, an end the planner returns is
    the start itself or an end after the start, no later than the maximum end,
    for which the service answered a count within the cap. *)
Theorem X1_planner_end_is_the_start_or_within_the_cap
    (r : GetData.remote) (start_date max_end_date e : GetData.date) :
  GetData.find_optimal_end_date r start_date max_end_date = Returns e ->
  e = start_date \/
  (start_date < e <= max_end_date /\
   exists count, GetData.count_of r start_date e = inr count /\
                 count <= GetData.MAX_EVENTS).
Proof. apply find_optimal_end_date_end. Qed.

Lemma X1_planner_end_witness :
  GetData.jan_1 2020 + 182 = GetData.jan_1 2020 \/
  (GetData.jan_1 2020 < GetData.jan_1 2020 + 182 <= GetData.dec_31 2020 /\
   exists count,
     GetData.count_of (GetData.synthetic 100) (GetData.jan_1 2020)
       (GetData.jan_1 2020 + 182) = inr count /\
     count <= GetData.MAX_EVENTS).
Proof.
  apply (X1_planner_end_is_the_start_or_within_the_cap (GetData.synthetic 100)
           (GetData.jan_1 2020) (GetData.dec_31 2020) (GetData.jan_1 2020 + 182)).
  vm_compute. reflexivity.
Defined.

(** X2. On a counting service that always answers and whose count does not
    decrease as the end moves later: if some end at least two days after the
    start, and no later than the maximum end, has a count between 12000 and
    the cap, the planner returns an end whose count lies between 12000 and the
    cap. *)
Theorem X2_planner_reaches_the_target_on_monotone_counts
    (r : GetData.remote) (count : GetData.date -> Z)
    (start_date max_end_date e' : GetData.date) :
  (forall e, GetData.count_of r start_date e = inr (count e)) ->
  (forall a b, a <= b -> count a <= count b) ->
  start_date + 2 <= e' <= max_end_date ->
  12000 <= count e' <= GetData.MAX_EVENTS ->
  exists e,
    GetData.find_optimal_end_date r start_date max_end_date = Returns e /\
    12000 <= count e <= GetData.MAX_EVENTS.
Proof.
  intros Hcount Hmono He' Hin. unfold GetData.find_optimal_end_date.
  apply (while_loop_returns (GetData.search_body r start_date) GetData.window
           (fun s => start_date <= GetData.left s /\
                     GetData.left s <= e' <= GetData.right s)
           (fun e => 12000 <= count e <= GetData.MAX_EVENTS));
    simpl; try lia.
  - intros s _. apply search_body_runs.
  - intros s s' (Hl & Hs) Hb. split; [|by eapply search_body_shrinks].
    pose proof (search_body_pass r start_date s) as Hp. rewrite Hb in Hp.
    pose proof (midpoint_between s).
    inversion Hp as [| | | |c Hlr Hmid Hc Hcap Hlow Heq|c Hlr Hmid Hc Hcap Heq];
      subst; simpl; rewrite Hcount in Hc; injection Hc as <-.
    + destruct (Z_lt_le_dec (GetData.midpoint s) e') as [|Hge]; [lia|].
      pose proof (Hmono _ _ Hge). lia.
    + destruct (Z_lt_le_dec e' (GetData.midpoint s)) as [|Hge]; [lia|].
      pose proof (Hmono _ _ Hge). lia.
  - intros s e (Hl & Hs) Hb.
    pose proof (search_body_pass r start_date s) as Hp. rewrite Hb in Hp.
    inversion Hp as [Hlr|Hlr Hmid| |c Hlr Hmid Hc Hcap Hlow| |]; subst.
    + lia.
    + exfalso. pose proof (midpoint_between s Hlr). unfold GetData.midpoint in *.
      assert (1 <= (GetData.right s - GetData.left s) / 2
              \/ start_date < GetData.left s) as [|]; [|lia|lia].
      destruct (Z_lt_le_dec start_date (GetData.left s)); [by right | left].
      apply Z.div_le_lower_bound; lia.
    + rewrite Hcount in Hc. injection Hc as <-. lia.
  - intros s _ e Hb.
    pose proof (search_body_pass r start_date s) as Hp. rewrite Hb in Hp.
    inversion Hp as [| |e0 Hlr Hmid Hc| | |]; subst. by rewrite Hcount in Hc.
Qed.

Lemma X2_planner_target_witness :
  exists e,
    GetData.find_optimal_end_date (GetData.synthetic 100)
      (GetData.jan_1 2020) (GetData.dec_31 2020) = Returns e /\
    12000 <= (e - GetData.jan_1 2020) * 100 <= GetData.MAX_EVENTS.
Proof.
  apply (X2_planner_reaches_the_target_on_monotone_counts (GetData.synthetic 100)
           (fun e => (e - GetData.jan_1 2020) * 100)
           (GetData.jan_1 2020) (GetData.dec_31 2020) (GetData.jan_1 2020 + 150)).
  - reflexivity.
  - intros a b Hab. lia.
  - vm_compute. split; discriminate.
  - vm_compute. split; discriminate.
Defined.

(** X3. When every end after the start, up to a maximum end at least two days
    after it, is counted below 12000 events, the planner grows the chunk to the
    maximum end: the rest of the span is taken in one piece. *)
Theorem X3_planner_takes_a_sparse_span_whole
    (r : GetData.remote) (start_date max_end_date : GetData.date) :
  (forall e, start_date < e <= max_end_date ->
     exists count, GetData.count_of r start_date e = inr count /\ count < 12000) ->
  start_date + 2 <= max_end_date ->
  GetData.find_optimal_end_date r start_date max_end_date = Returns max_end_date.
Proof.
  intros Hsparse Hspan. unfold GetData.find_optimal_end_date.
  cut (exists e,
         while_loop
           (S (GetData.window {| GetData.left := start_date;
                                 GetData.right := max_end_date;
                                 GetData.best_end := start_date |}))
           (GetData.search_body r start_date)
           {| GetData.left := start_date; GetData.right := max_end_date;
              GetData.best_end := start_date |}
         = Returns e /\ e = max_end_date).
  { by intros (e & -> & ->). }
  apply (while_loop_returns (GetData.search_body r start_date) GetData.window
           (fun s => GetData.right s = max_end_date /\
                     GetData.left s <= max_end_date + 1 /\
                     (GetData.left s = start_date /\ GetData.best_end s = start_date \/
                      start_date < GetData.left s /\
                      GetData.best_end s = GetData.left s - 1))
           (fun e => e = max_end_date));
    simpl; try lia.
  - intros s _. apply search_body_runs.
  - intros s s' (Hr & Hl & Hb') Hb. split; [|by eapply search_body_shrinks].
    pose proof (search_body_pass r start_date s) as Hp. rewrite Hb in Hp.
    pose proof (midpoint_between s).
    inversion Hp as [| | | |c Hlr Hmid Hc Hcap Hlow Heq|c Hlr Hmid Hc Hcap Heq];
      subst; simpl.
    + lia.
    + destruct (Hsparse (GetData.midpoint s)) as (c' & Hc' & Hlow); [lia|].
      rewrite Hc in Hc'. injection Hc' as <-. unfold GetData.MAX_EVENTS in *. lia.
  - intros s e (Hr & Hl & Hb') Hb.
    pose proof (search_body_pass r start_date s) as Hp. rewrite Hb in Hp.
    inversion Hp as [Hlr|Hlr Hmid| |c Hlr Hmid Hc Hcap Hlow| |]; subst.
    + lia.
    + exfalso. pose proof (midpoint_between s Hlr). unfold GetData.midpoint in *.
      assert (1 <= (GetData.right s - GetData.left s) / 2
              \/ start_date < GetData.left s) as [|]; [|lia|lia].
      destruct (Z_lt_le_dec start_date (GetData.left s)); [by right | left].
      apply Z.div_le_lower_bound; lia.
    + pose proof (midpoint_between s Hlr).
      destruct (Hsparse (GetData.midpoint s)) as (c' & Hc' & Hlow'); [lia|].
      rewrite Hc in Hc'. injection Hc' as <-. lia.
  - intros s (Hr & Hl & Hb') e Hb.
    pose proof (search_body_pass r start_date s) as Hp. rewrite Hb in Hp.
    inversion Hp as [| |e0 Hlr Hmid Hc| | |]; subst.
    pose proof (midpoint_between s Hlr).
    destruct (Hsparse (GetData.midpoint s)) as (c' & Hc' & _); [lia|]. congruence.
Qed.

Lemma X3_planner_sparse_witness :
  GetData.find_optimal_end_date (GetData.synthetic 10)
    (GetData.jan_1 1900) (GetData.dec_31 1900) = Returns (GetData.dec_31 1900).
Proof.
  apply (X3_planner_takes_a_sparse_span_whole (GetData.synthetic 10)
           (GetData.jan_1 1900) (GetData.dec_31 1900)).
  - intros e He. exists ((e - GetData.jan_1 1900) * 10). split; [reflexivity|].
    revert He. vm_compute (GetData.jan_1 1900). vm_compute (GetData.dec_31 1900). lia.
  - vm_compute. discriminate.
Defined.

(** X4. The planner only consults the counts of ends after the start and no
    later than the maximum end: two services that answer alike there make it
    end alike, whatever they answer elsewhere. *)
Theorem X4_planner_consults_only_the_span
    (r r' : GetData.remote) (start_date max_end_date : GetData.date) :
  (forall e, start_date < e <= max_end_date ->
     GetData.count_of r start_date e = GetData.count_of r' start_date e) ->
  GetData.find_optimal_end_date r start_date max_end_date
  = GetData.find_optimal_end_date r' start_date max_end_date.
Proof.
  intros Hsame. unfold GetData.find_optimal_end_date.
  apply (while_loop_agree _ _ (fun s => GetData.right s <= max_end_date)); [| |simpl; lia].
  - intros s Hs. by apply (search_body_agree r r' start_date max_end_date).
  - intros s s' Hs Hb. apply search_body_right in Hb. lia.
Qed.

Lemma X4_planner_span_witness :
  GetData.find_optimal_end_date (GetData.synthetic 100)
    (GetData.jan_1 2020) (GetData.dec_31 2020)
  = GetData.find_optimal_end_date
      {| GetData.count_of := fun s e =>
           if e <=? GetData.dec_31 2020 then inr ((e - s) * 100)
           else inl (ValueError "Invalid response from count API");
         GetData.query_of := fun _ _ => inr ""%string |}
      (GetData.jan_1 2020) (GetData.dec_31 2020).
Proof.
  apply X4_planner_consults_only_the_span.
  intros e [_ He]. simpl. by apply Z.leb_le in He as ->.
Defined.

(** ** The chunks the driver writes *)

Section DriverCoverage.
Import GetData Specs.

Lemma follow_snoc from final_date files s e t :
  follow from final_date (files ++ [(s, e, t)])
  = match follow from final_date files with
    | Some c => if (s =? c) && (s <=? e) && (e <=? final_date) then Some (e + 1) else None
    | None => None
    end.
Proof.
  revert from. induction files as [|[[s' e'] t'] files IH]; intros from; simpl; [done|].
  destruct ((s' =? from) && (s' <=? e') && (e' <=? final_date)); [apply IH | done].
Qed.

Lemma counted_snoc r files s e t :
  counted r (files ++ [(s, e, t)])
  = counted r files + match count_of r s e with inr count => count | inl _ => 0 end.
Proof.
  induction files as [|[[s' e'] t'] files IH]; simpl.
  - destruct (count_of r s e); lia.
  - rewrite IH. destruct (count_of r s' e'); lia.
Qed.

(** What a pass of the driver does when it does not leave at once. *)
Lemma chunk_body_chunk samples r final_date st x :
  chunk_body samples r final_date st = Returns x ->
  x = Break st \/
  exists e count body,
    current_date st <= e <= final_date /\
    count_of r (current_date st) e = inr count /\
    query_of r (current_date st) e = inr body /\
    let st' := {| current_date := e + 1;
                  chunk_number := chunk_number st + 1;
                  total_samples_collected := total_samples_collected st + count;
                  raw_data := raw_data st ++ [(current_date st, e, body)] |} in
    x = Continue st' \/ x = Break st'.
Proof.
  unfold chunk_body.
  destruct (_ && _) eqn:Htest; [|intros [= <-]; by left].
  apply andb_true_iff in Htest as [Hlt%Z.ltb_lt _]. intros Hx. right.
  destruct (find_optimal_end_date _ _ _) as [e| |] eqn:Hfind; simpl in Hx; try done.
  destruct (count_of r _ _) as [|count] eqn:Hcount; simpl in Hx; [done|].
  unfold download_data in Hx.
  destruct (query_of r _ _) as [|body] eqn:Hquery; simpl in Hx; [done|].
  exists e, count, body. split.
  { destruct (find_optimal_end_date_end _ _ _ _ Hfind) as [->|[? _]]; lia. }
  split; [done|]. split; [done|]. cbv zeta.
  destruct (reached _ _); injection Hx as <-; [by right | by left].
Qed.

(** The driver's bookkeeping, kept by every pass. *)
Lemma download_loop_bookkeeping samples r final_date from st st' :
  follow from final_date (raw_data st) = Some (current_date st) ->
  chunk_number st = 1 + Z.of_nat (length (raw_data st)) ->
  total_samples_collected st = counted r (raw_data st) ->
  recorded r (raw_data st) ->
  download_loop samples r final_date st = Returns st' ->
  follow from final_date (raw_data st') = Some (current_date st') /\
  chunk_number st' = 1 + Z.of_nat (length (raw_data st')) /\
  total_samples_collected st' = counted r (raw_data st') /\
  recorded r (raw_data st').
Proof.
  intros Hfollow Hnumber Htotal Hrecorded. unfold download_loop.
  set (Inv := fun s : driver =>
    follow from final_date (raw_data s) = Some (current_date s) /\
    chunk_number s = 1 + Z.of_nat (length (raw_data s)) /\
    total_samples_collected s = counted r (raw_data s) /\
    recorded r (raw_data s)).
  assert (Hstep : forall s x, Inv s -> chunk_body samples r final_date s = Returns x ->
            match x with Continue s' | Break s' => Inv s' end).
  { intros s x (Hf & Hn & Ht & Hr) Hb.
    destruct (chunk_body_chunk _ _ _ _ _ Hb)
      as [->|(e & count & body & He & Hcount & Hquery & Hx)]; [done|].
    cbv zeta in Hx.
    assert (Inv {| current_date := e + 1;
                   chunk_number := chunk_number s + 1;
                   total_samples_collected := total_samples_collected s + count;
                   raw_data := raw_data s ++ [(current_date s, e, body)] |}).
    { unfold Inv. cbn [current_date chunk_number total_samples_collected raw_data].
      rewrite follow_snoc, Hf, counted_snoc, Hcount, length_app, Nat2Z.inj_add.
      rewrite Z.eqb_refl.
      assert ((current_date s <=? e) = true) as -> by (apply Z.leb_le; lia).
      assert ((e <=? final_date) = true) as -> by (apply Z.leb_le; lia).
      repeat split; [simpl; lia | lia |].
      apply Forall_app. split; [done|]. by constructor. }
    by destruct Hx as [->| ->]. }
  apply (while_loop_post (chunk_body samples r final_date) (remaining final_date) Inv Inv).
  - intros s s' Hs Hb. split; [apply (Hstep s _ Hs Hb)|].
    apply chunk_body_continue in Hb. unfold remaining. lia.
  - intros s s' Hs Hb. apply (Hstep s _ Hs Hb).
  - done.
Qed.
End DriverCoverage.

(** X5. When the acquisition driver returns, the chunks it has written start
    on January 1st of the start year and follow one another without gap or
    overlap in whole days: each begins the day after the one before ended, ends
    on or after its own start and no later than December 31st of the end year,
    and [current_date] is the day after the last.  [chunk_number] is one more
    than the number of chunks, the running total is the sum of the counts the
    service gives for the chunks, and every file holds the service's answer for
    its range.  With the unbounded sample target of the module the run has
    moved [current_date] to the final date or past it. *)
Theorem X5_driver_chunks_follow_one_another
    (samples : GetData.limit) (r : GetData.remote) (start_year end_year : Z)
    (st : GetData.driver) :
  GetData.download_data_in_chunks samples r start_year end_year = Returns st ->
  Specs.follow (GetData.jan_1 start_year) (GetData.dec_31 end_year) (GetData.raw_data st)
  = Some (GetData.current_date st) /\
  GetData.chunk_number st = 1 + Z.of_nat (length (GetData.raw_data st)) /\
  GetData.total_samples_collected st = Specs.counted r (GetData.raw_data st) /\
  Specs.recorded r (GetData.raw_data st) /\
  (samples = GetData.SAMPLES -> GetData.dec_31 end_year <= GetData.current_date st).
Proof.
  intros Hrun. unfold GetData.download_data_in_chunks in Hrun.
  destruct (download_loop_bookkeeping samples r (GetData.dec_31 end_year)
              (GetData.jan_1 start_year)
              {| GetData.current_date := GetData.jan_1 start_year;
                 GetData.chunk_number := 1;
                 GetData.total_samples_collected := 0;
                 GetData.raw_data := [] |}
              st eq_refl eq_refl eq_refl (Forall_nil_2 _) Hrun)
    as (Hfollow & Hnumber & Htotal & Hrecorded).
  repeat split; try done.
  intros ->. by destruct (download_loop_stops _ _ _ _ _ Hrun) as [[?|?] _].
Qed.

Lemma X5_driver_chunks_witness :
  exists st,
    GetData.download_data_in_chunks GetData.SAMPLES (GetData.synthetic 100) 2020 2020
    = Returns st /\
    Specs.follow (GetData.jan_1 2020) (GetData.dec_31 2020) (GetData.raw_data st)
    = Some (GetData.current_date st) /\
    GetData.chunk_number st = 1 + Z.of_nat (length (GetData.raw_data st)) /\
    GetData.dec_31 2020 <= GetData.current_date st.
Proof.
  assert (exists st,
            GetData.download_data_in_chunks GetData.SAMPLES (GetData.synthetic 100)
              2020 2020 = Returns st) as [st Hrun].
  { vm_compute. eexists. reflexivity. }
  destruct (X5_driver_chunks_follow_one_another _ _ _ _ _ Hrun)
    as (Hfollow & Hnumber & _ & _ & Hdone).
  exists st. split; [exact Hrun|]. split; [exact Hfollow|].
  split; [exact Hnumber | exact (Hdone eq_refl)].
Defined.

(** ** Energy and magnitude *)

(** X6. The sign of the velocity plays no part in the magnitude of an impact:
    a velocity and its opposite give the same kinetic energy, and so the same
    outcome of [energy_to_magnitude], be it a magnitude or the refusal. *)
Theorem X6_magnitude_ignores_the_sign_of_the_velocity `{PyLib}
    (mass_kg velocity_ms : Q) :
  Inference.calculate_kinetic_energy mass_kg (- velocity_ms)
  = Inference.calculate_kinetic_energy mass_kg velocity_ms /\
  Inference.energy_to_magnitude
    (Inference.calculate_kinetic_energy mass_kg (- velocity_ms))
  = Inference.energy_to_magnitude
      (Inference.calculate_kinetic_energy mass_kg velocity_ms).
Proof.
  assert (Inference.calculate_kinetic_energy mass_kg (- velocity_ms)
          = Inference.calculate_kinetic_energy mass_kg velocity_ms) as Hsame.
  { unfold Inference.calculate_kinetic_energy.
    change ((- velocity_ms) ^ 2)%Q with ((- velocity_ms) * (- velocity_ms))%Q.
    change (velocity_ms ^ 2)%Q with (velocity_ms * velocity_ms)%Q.
    f_equal. destruct velocity_ms as [n d]. unfold Qmult, Qopp. cbn [Qnum Qden].
    by rewrite Z.mul_opp_opp. }
  split; [exact Hsame | by rewrite Hsame].
Qed.

(** ** Files the joiner does not survive *)

Section JoinerCoverage.
Import JoinData Specs.

Lemma files_loop_app {A} (l1 l2 : list A) (body : A -> J unit) st :
  for_each (l1 ++ l2) body st
  = match for_each l1 body st with
    | (Returns _, st') => for_each l2 body st'
    | (Raises e, st') => (Raises e, st')
    | (OutOfFuel, st') => (OutOfFuel, st')
    end.
Proof.
  revert st. induction l1 as [|x l1 IH]; intros st; [done|].
  rewrite <- app_comm_cons, !for_each_cons.
  destruct (body x st) as [[[]| |] st']; by rewrite ?IH.
Qed.

Lemma enumerate_from_app {A} i (l1 l2 : list A) :
  enumerate_from i (l1 ++ l2)
  = enumerate_from i l1 ++ enumerate_from (i + length l1) l2.
Proof.
  revert i. induction l1 as [|x l1 IH]; intros i; simpl.
  - by rewrite Nat.add_0_r.
  - by rewrite IH, Nat.add_succ_r.
Qed.

(** A file holding a scalar stops at the membership test, before anything is
    written or counted, and the handler lets the error through. *)
Lemma try_file_scalar f v st :
  content f = inr v -> is_scalar v = true ->
  try_file f st
  = (Raises (TypeError ("argument of type '" +:+ type_name v +:+ "' is not iterable")),
     st).
Proof.
  intros Hc Hv. unfold try_file, process_file. rewrite Hc.
  by destruct v.
Qed.
End JoinerCoverage.

(** X7. A chunk file that is valid JSON but holds a scalar ([null], a number,
    a boolean) ends the join: after any files of the two handled shapes, the
    membership test on it raises a [TypeError] that the handler does not
    catch.  The call raises it; the output file then holds the opening bracket
    and the projections of the features of the files before it, with no
    closing bracket, and the count is that of those features; whatever files
    come after it play no part. *)
Theorem X7_join_stops_at_a_scalar_file
    (pre post : list JoinData.file) (bad : JoinData.file) (v : value) :
  forallb (fun f => JoinData.undecodable f || JoinData.is_collection f) pre = true ->
  JoinData.content bad = inr v ->
  Specs.is_scalar v = true ->
  exists st,
    JoinData.join_data_files (pre ++ bad :: post)
    = (Raises (TypeError ("argument of type '" +:+ type_name v +:+ "' is not iterable")),
       st) /\
    JoinData.out_f st
    = JoinData.Text ("[" +:+ LF)
        :: JoinData.separated
             (map JoinData.projection (flat_map JoinData.features_of pre)) /\
    JoinData.total_events st
    = Z.of_nat (length (flat_map JoinData.features_of pre)).
Proof.
  intros Hpre Hbad Hv. unfold JoinData.join_data_files, JoinData.join_body.
  set (n := length (pre ++ bad :: post)).
  set (st0 := {| JoinData.out_f := [JoinData.Text ("[" +:+ LF)];
                 JoinData.first_feature := true;
                 JoinData.total_events := 0;
                 JoinData.printed := [JoinData.Found n] |}).
  destruct (files_loop_lays_out pre n 0 st0 [] (conj eq_refl eq_refl) Hpre)
    as (st1 & Hloop & [Hout1 _] & Htotal1 & _).
  unfold mbind, JoinData.J_bind, JoinData.print at 1, JoinData.write at 1.
  cbn [JoinData.out_f JoinData.first_feature JoinData.total_events JoinData.printed app].
  fold st0.
  rewrite enumerate_from_app, files_loop_app, Hloop.
  cbn [JoinData.enumerate_from]. rewrite for_each_cons, file_pass_unfold.
  rewrite (try_file_scalar bad v _ Hbad Hv).
  eexists. split; [reflexivity|].
  cbn [JoinData.out_f JoinData.total_events]. by rewrite Hout1, Htotal1.
Qed.

Lemma X7_join_scalar_witness :
  exists st,
    JoinData.join_data_files ([Fixtures.january; Fixtures.february] ++ Fixtures.may
                                :: [Fixtures.march])
    = (Raises (TypeError "argument of type 'NoneType' is not iterable"), st) /\
    JoinData.out_f st
    = JoinData.Text ("[" +:+ LF)
        :: JoinData.separated
             (map JoinData.projection
                (flat_map JoinData.features_of [Fixtures.january; Fixtures.february])) /\
    JoinData.total_events st = 2.
Proof.
  apply (X7_join_stops_at_a_scalar_file [Fixtures.january; Fixtures.february]
           [Fixtures.march] Fixtures.may VNone); reflexivity.
Defined.

(** X8. A feature record whose [geometry] is present but is not an object (a
    [null] geometry, say), and whose [properties] are absent or an object,
    makes [parse_feature] raise an [AttributeError] for the missing [items];
    the joiner's handler does not catch that error. *)
Theorem X8_parse_feature_refuses_a_geometry_that_is_no_object
    (fkvs props : list (string * value)) (geometry : value) :
  JoinData.entries "properties" fkvs props ->
  dict_get "geometry" fkvs = Some geometry ->
  (forall its, geometry <> VDict its) ->
  JoinData.parse_feature (VDict fkvs)
  = Raises (AttributeError ("'" +:+ type_name geometry
                            +:+ "' object has no attribute 'items'")) /\
  JoinData.caught (AttributeError ("'" +:+ type_name geometry
                                   +:+ "' object has no attribute 'items'")) = false.
Proof.
  intros Hprops Hgeometry Hshape. split; [|done].
  unfold JoinData.parse_feature.
  rewrite (copy_section_entries _ _ _ _ Hprops). cbn [mbind outcome_bind].
  unfold JoinData.copy_section. cbn [contains getitem mbind outcome_bind].
  rewrite str_in_keys, Hgeometry. cbn [mbind outcome_bind].
  destruct geometry; try done. by destruct (Hshape kvs).
Qed.

Lemma X8_parse_feature_null_geometry_witness :
  JoinData.parse_feature
    (VDict [("properties", VDict [("mag", VFloat 4.7)]); ("geometry", VNone)])
  = Raises (AttributeError "'NoneType' object has no attribute 'items'") /\
  JoinData.caught (AttributeError "'NoneType' object has no attribute 'items'") = false.
Proof.
  apply (X8_parse_feature_refuses_a_geometry_that_is_no_object
           [("properties", VDict [("mag", VFloat 4.7)]); ("geometry", VNone)]%string
           [("mag", VFloat 4.7)]%string VNone).
  - by left.
  - reflexivity.
  - discriminate.
Defined.

(** ** The synthesized vector *)

Lemma generate_seismic_features_keys env magnitude latitude longitude k :
  is_Some (Inference.generate_seismic_features env magnitude latitude longitude !! k)
  <-> k ∈ Inference.all_features.
Proof.
  rewrite generate_seismic_features_entries, <- elem_of_dom.
  rewrite !dom_insert_L, dom_empty_L. unfold Inference.all_features.
  rewrite !elem_of_union, !elem_of_singleton, !elem_of_cons, elem_of_nil, elem_of_empty.
  tauto.
Qed.

(** X9. The vector [generate_seismic_features] returns binds exactly the twelve
    features that [predict_seismic_impact] assembles for the model, whatever
    the magnitude, the coordinates, the clock and the draw. *)
Theorem X9_synthesized_vector_has_the_twelve_features
    (env : Inference.Env) (magnitude latitude longitude : Q) (k : string) :
  is_Some (Inference.generate_seismic_features env magnitude latitude longitude !! k)
  <-> k ∈ Inference.all_features.
Proof. apply generate_seismic_features_keys. Qed.

(** X10. The alert tier of the synthesized vector is decided by the magnitude
    and the significance the vector itself carries: Red (4) from magnitude 7,
    Orange (3) from magnitude 6, and below that Yellow (2) from [sig] 400,
    Green (1) from [sig] 200, none (0) otherwise.  The depth, the intensity
    rules and the magnitude thresholds 6.5, 5.5 and 5 never decide. *)
Theorem X10_alert_tier_follows_magnitude_and_significance
    (env : Inference.Env) (magnitude latitude longitude : Q) :
  exists sig,
    Inference.generate_seismic_features env magnitude latitude longitude !! "sig"
    = Some (VInt sig) /\
    Inference.generate_seismic_features env magnitude latitude longitude !! "alert"
    = Some (VInt (if Qle_bool 7 magnitude then 4
                  else if Qle_bool 6 magnitude then 3
                  else if 400 <=? sig then 2
                  else if 200 <=? sig then 1
                  else 0)).
Proof.
  exists (Inference.sig_of magnitude). split.
  - rewrite generate_seismic_features_entries. by simplify_map_eq.
  - rewrite alert_entry, alert_of_tiers. do 2 f_equal.
    unfold Inference.sig_of. rewrite !Zleb_Qtrunc by lia.
    assert (Qle_bool (inject_Z 400) (magnitude * 100 + 100) = Qle_bool 3 magnitude) as ->.
    { destruct (Qle_bool 3 magnitude) eqn:H3.
      - apply Qle_bool_iff in H3. apply Qle_bool_true.
        change (inject_Z 400) with 400%Q. lra.
      - apply Qle_bool_false_lt in H3. apply Qle_bool_false.
        change (inject_Z 400) with 400%Q. lra. }
    assert (Qle_bool (inject_Z 200) (magnitude * 100 + 100) = Qle_bool 1 magnitude) as ->.
    { destruct (Qle_bool 1 magnitude) eqn:H1.
      - apply Qle_bool_iff in H1. apply Qle_bool_true.
        change (inject_Z 200) with 200%Q. lra.
      - apply Qle_bool_false_lt in H1. apply Qle_bool_false.
        change (inject_Z 200) with 200%Q. lra. }
    done.
Qed.

(** ** Validation at the endpoint *)

Section ValidationCoverage.
Import Inference Router.
Context `{PyLib}.
Local Open Scope Q_scope.

(** A request refused by validation is answered with that refusal: nothing is
    computed or loaded, and the generic handler lets it through. *)
Lemma predict_refused env files data status detail :
  validate data = Raises (HTTPException status detail) ->
  predict env files data = Raises (HTTPException status detail).
Proof. intros Hv. unfold predict, predict_body. by rewrite Hv. Qed.
End ValidationCoverage.

(** X11. A request with a positive mass, a positive velocity, a latitude from
    -90 to 90 and a longitude from -180 to 180 passes validation.  A request
    that fails one of these tests is answered 400 with the message of the first
    test that fails, in the order mass, velocity, latitude, longitude, whatever
    the artifacts, the clock and the library are: nothing is loaded or
    computed. *)
Theorem X11_invalid_requests_are_answered_400
    (L : PyLib) (env : Inference.Env) (files : Inference.Artifacts)
    (data : Router.PredictionData) :
  ((0 < Router.mass data /\ 0 < Router.velocity data /\
    -90 <= Router.latitude data <= 90 /\ -180 <= Router.longitude data <= 180)%Q ->
   Router.validate data = Returns tt) /\
  ((Router.mass data <= 0)%Q ->
   Router.predict env files data
   = Raises (HTTPException 400 "Mass must be positive")) /\
  ((0 < Router.mass data)%Q -> (Router.velocity data <= 0)%Q ->
   Router.predict env files data
   = Raises (HTTPException 400 "Velocity must be positive")) /\
  ((0 < Router.mass data)%Q -> (0 < Router.velocity data)%Q ->
   (Router.latitude data < -90 \/ 90 < Router.latitude data)%Q ->
   Router.predict env files data
   = Raises (HTTPException 400 "Latitude must be between -90 and 90 degrees")) /\
  ((0 < Router.mass data)%Q -> (0 < Router.velocity data)%Q ->
   (-90 <= Router.latitude data <= 90)%Q ->
   (Router.longitude data < -180 \/ 180 < Router.longitude data)%Q ->
   Router.predict env files data
   = Raises (HTTPException 400 "Longitude must be between -180 and 180 degrees")).
Proof.
  split.
  - intros (Hm & Hv & [Hla1 Hla2] & [Hlo1 Hlo2]). unfold Router.validate.
    rewrite (Qle_bool_false (Router.mass data) 0) by done.
    rewrite (Qle_bool_false (Router.velocity data) 0) by done.
    by rewrite !Qle_bool_true.
  - repeat split.
    + intros Hm. apply predict_refused. unfold Router.validate.
      by rewrite Qle_bool_true.
    + intros Hm Hv. apply predict_refused. unfold Router.validate.
      rewrite (Qle_bool_false (Router.mass data) 0) by done. by rewrite Qle_bool_true.
    + intros Hm Hv Hla. apply predict_refused. unfold Router.validate.
      rewrite (Qle_bool_false (Router.mass data) 0) by done.
      rewrite (Qle_bool_false (Router.velocity data) 0) by done.
      destruct Hla as [Hla|Hla].
      * by rewrite (Qle_bool_false (-90) (Router.latitude data)).
      * rewrite (Qle_bool_false (Router.latitude data) 90) by done.
        by rewrite andb_false_r.
    + intros Hm Hv [Hla1 Hla2] Hlo. apply predict_refused. unfold Router.validate.
      rewrite (Qle_bool_false (Router.mass data) 0) by done.
      rewrite (Qle_bool_false (Router.velocity data) 0) by done.
      rewrite (Qle_bool_true (-90) (Router.latitude data)) by done.
      rewrite (Qle_bool_true (Router.latitude data) 90) by done.
      destruct Hlo as [Hlo|Hlo].
      * by rewrite (Qle_bool_false (-180) (Router.longitude data)).
      * rewrite (Qle_bool_false (Router.longitude data) 180) by done.
        by rewrite andb_false_r.
Qed.

Lemma X11_invalid_request_witness :
  Router.predict (H := Fixtures.double) (Fixtures.at_clock 0) Fixtures.artifacts
    {| Router.mass := 14000000; Router.velocity := 18000;
       Router.latitude := 95; Router.longitude := 139.6503 |}
  = Raises (HTTPException 400 "Latitude must be between -90 and 90 degrees").
Proof.
  apply (proj1 (proj2 (proj2 (proj2
           (X11_invalid_requests_are_answered_400 Fixtures.double (Fixtures.at_clock 0)
              Fixtures.artifacts
              {| Router.mass := 14000000; Router.velocity := 18000;
                 Router.latitude := 95; Router.longitude := 139.6503 |}))))).
  - reflexivity.
  - reflexivity.
  - right. reflexivity.
Defined.

(** ** The features of a returned prediction *)

Section ResultCoverage.
Import Inference.

Lemma refine_is_Some (s : gmap string value) o k :
  is_Some (s !! k) -> is_Some (refine s o !! k).
Proof.
  unfold refine. generalize (cells o). intros l. revert s.
  induction l as [|[k' v'] l IH]; intros s Hs; [done|].
  cbn [fold_left fst snd]. apply IH.
  destruct (str_in k' keep_original); [done|].
  rewrite lookup_insert. by case_decide.
Qed.
End ResultCoverage.

(** X13. Whenever [predict_seismic_impact] returns a triple, its features
    still bind each of the twelve model features: refinement overwrites and
    adds fields, it removes none.  The endpoint's reads of [alert], [mag],
    [mmi], [cdi], [sig], [depth] and [tsunami] therefore find their key. *)
Theorem X13_returned_features_keep_the_twelve_keys `{PyLib}
    (env : Inference.Env) (files : Inference.Artifacts)
    (mass_kg velocity_ms latitude longitude : Q)
    (features : gmap string value) (energy : Q) (cluster : Z) (f : string) :
  Inference.predict_seismic_impact env files mass_kg velocity_ms latitude longitude
  = Returns (Inference.Prediction features energy cluster) ->
  f ∈ Inference.all_features ->
  exists v, Inference.lookup_feature features f = Returns v.
Proof.
  intros Hrun Hf.
  destruct (predict_seismic_impact_triple _ _ _ _ _ _ _ _ _ Hrun)
    as (magnitude & kmeans & scaler & model_info & clustered_data & original_data &
        full & normalized & _ & _ & _ & _ & _ & _ & _ & _ & Hmatch).
  assert (Hsyn : is_Some (Inference.generate_seismic_features env magnitude latitude
                            longitude !! f)).
  { by apply generate_seismic_features_keys. }
  assert (is_Some (features !! f)) as [v Hv].
  { destruct Hmatch as [[_ Heq]|(n & o & d & _ & Heq)]; rewrite Heq; [done|].
    by apply refine_is_Some. }
  exists v. unfold Inference.lookup_feature. by rewrite Hv.
Qed.

Lemma X13_returned_features_witness :
  exists features energy cluster v,
    Inference.predict_seismic_impact (H := Fixtures.double)
      (Fixtures.at_clock 1700000000000) Fixtures.artifacts
      14000000 18000 35.6762 139.6503
    = Returns (Inference.Prediction features energy cluster) /\
    Inference.lookup_feature features "alert" = Returns v.
Proof.
  assert (exists features energy cluster,
            Inference.predict_seismic_impact (H := Fixtures.double)
              (Fixtures.at_clock 1700000000000) Fixtures.artifacts
              14000000 18000 35.6762 139.6503
            = Returns (Inference.Prediction features energy cluster))
    as (features & energy & cluster & Hrun).
  { vm_compute. eexists _, _, _. reflexivity. }
  destruct (X13_returned_features_keep_the_twelve_keys (H := Fixtures.double)
              _ _ _ _ _ _ _ _ _ "alert"%string Hrun) as [v Hv].
  { apply str_in_true. reflexivity. }
  exists features, energy, cluster, v. split; [exact Hrun | exact Hv].
Defined.

(** ** The nearest example, as the matcher reports it *)



(** ** The vector handed to the model *)

Section VectorCoverage.
Import Inference Specs.
Context `{PyLib}.

(** The loop fills position [i] from the next unused output of the scaler when
    the feature there is to be normalized, and from the raw feature otherwise. *)
Lemma assemble_slots features features_to_normalize normalized_subset
    synthetic_features idx full :
  assemble features features_to_normalize normalized_subset synthetic_features idx
  = Returns full ->
  length full = length features /\
  forall i f, features !! i = Some f ->
    if str_in f features_to_normalize then
      is_Some (full !! i) /\
      full !! i
      = normalized_subset
          !! (idx + length (List.filter (fun g => str_in g features_to_normalize)
                              (take i features)))%nat
    else
      exists v x, synthetic_features !! f = Some v /\ as_float v = Returns x /\
                  full !! i = Some x.
Proof.
  revert idx full. induction features as [|f0 rest IH]; intros idx full; simpl.
  - intros [= <-]. split; [done|]. by intros i f ?.
  - destruct (str_in f0 features_to_normalize) eqn:Hf0; intros Hasm.
    + apply bind_Returns in Hasm as (x & Hx & Hasm).
      apply bind_Returns in Hasm as (xs & Hxs & Hasm). injection Hasm as <-.
      destruct (IH _ _ Hxs) as [Hlen Hslots]. split; [simpl; lia|].
      unfold at_index in Hx. rewrite nth_error_lookup in Hx.
      destruct (normalized_subset !! idx) as [x'|] eqn:Hidx; [|done].
      injection Hx as ->.
      intros [|i] f Hf; simpl in Hf.
      * injection Hf as <-. rewrite Hf0. simpl. rewrite Nat.add_0_r. eauto.
      * specialize (Hslots i f Hf). simpl. rewrite Hf0. simpl.
        destruct (str_in f features_to_normalize); [|done].
        by rewrite Nat.add_succ_r.
    + apply bind_Returns in Hasm as (v & Hv & Hasm).
      apply bind_Returns in Hasm as (x & Hx & Hasm).
      apply bind_Returns in Hasm as (xs & Hxs & Hasm). injection Hasm as <-.
      destruct (IH _ _ Hxs) as [Hlen Hslots]. split; [simpl; lia|].
      unfold lookup_feature in Hv.
      destruct (synthetic_features !! f0) as [v'|] eqn:Hsyn; [|done].
      injection Hv as ->.
      intros [|i] f Hf; simpl in Hf.
      * injection Hf as <-. rewrite Hf0. simpl. eauto.
      * specialize (Hslots i f Hf). simpl. by rewrite Hf0.
Qed.

Lemma fold_normalized_raises features_to_normalize normalized_subset l e :
  fold_left
    (fun (acc : outcome (gmap string Q)) f =>
       d ← acc;
       x ← at_index normalized_subset (default O (index_of f features_to_normalize));
       Returns (<[f := x]> d)) l (Raises e)
  = Raises e.
Proof. induction l as [|f l IH]; simpl; [done | apply IH]. Qed.

(** The dictionary handed to the matcher binds each name in [l] to the output
    of the scaler at the first position of that name in the metadata. *)
Lemma fold_normalized_lookup features_to_normalize normalized_subset l acc d f :
  fold_left
    (fun (acc : outcome (gmap string Q)) f =>
       d ← acc;
       x ← at_index normalized_subset (default O (index_of f features_to_normalize));
       Returns (<[f := x]> d)) l (Returns acc)
  = Returns d ->
  d !! f = if str_in f l
           then normalized_subset !! default O (index_of f features_to_normalize)
           else acc !! f.
Proof.
  revert acc. induction l as [|g l IH]; intros acc; simpl; [by intros [= <-]|].
  unfold at_index at 2. rewrite nth_error_lookup.
  destruct (normalized_subset !! default O (index_of g features_to_normalize))
    as [x|] eqn:Hx; simpl.
  - intros Hfold. rewrite (IH _ Hfold). unfold str_in. simpl.
    destruct (existsb (String.eqb f) l) eqn:Hl; [by rewrite orb_true_r|].
    rewrite orb_false_r. destruct (String.eqb f g) eqn:Hfg.
    + apply String.eqb_eq in Hfg as ->. by rewrite lookup_insert_eq.
    + apply String.eqb_neq in Hfg. by rewrite lookup_insert_ne.
  - by rewrite fold_normalized_raises.
Qed.

Lemma index_of_NoDup (l : list string) k f :
  NoDup l -> l !! k = Some f -> index_of f l = Some k.
Proof.
  revert k. induction l as [|g l IH]; intros k Hnd Hk; [done|].
  apply NoDup_cons in Hnd as [Hg Hnd]. simpl.
  destruct k as [|k]; simpl in Hk.
  - injection Hk as ->. by rewrite String.eqb_refl.
  - destruct (String.eqb f g) eqn:Hfg.
    + apply String.eqb_eq in Hfg as ->. destruct Hg.
      apply list_elem_of_lookup. eauto.
    + by rewrite (IH k Hnd Hk).
Qed.

Lemma filter_lookup_before {A} (P : A -> bool) (l : list A) i x :
  l !! i = Some x -> P x = true ->
  List.filter P l !! length (List.filter P (take i l)) = Some x.
Proof.
  revert i. induction l as [|y l IH]; intros [|i] Hi Hx; simpl in *; try done.
  - injection Hi as ->. by rewrite Hx.
  - destruct (P y); simpl; by apply IH.
Qed.

Lemma all_features_NoDup : NoDup all_features.
Proof. apply (bool_decide_unpack _). by vm_compute. Qed.

(** In model order, the normalized features before position [i] are as many
    as the position of the feature at [i] in the metadata. *)
Lemma in_model_order_index features_to_normalize i f :
  in_model_order features_to_normalize ->
  all_features !! i = Some f -> str_in f features_to_normalize = true ->
  index_of f features_to_normalize
  = Some (length (List.filter (fun g => str_in g features_to_normalize)
                    (take i all_features))).
Proof.
  intros Horder Hi Hf. apply index_of_NoDup.
  - rewrite <- Horder. apply NoDup_ListNoDup, List.NoDup_filter, NoDup_ListNoDup.
    apply all_features_NoDup.
  - assert (List.filter (fun g => str_in g features_to_normalize) all_features
            !! length (List.filter (fun g => str_in g features_to_normalize)
                         (take i all_features)) = Some f) as Hk.
    { by apply filter_lookup_before. }
    unfold in_model_order in Horder. by rewrite Horder in Hk.
Qed.
End VectorCoverage.

Section ModelVector.
Import Inference Specs.
Context `{PyLib}.

(** X14. When the inference step returns, the vector handed to the clustering
    model has one entry per feature of [all_features]; the entry of a feature
    that is not normalized is its raw synthesized value, and the entry of the
    k-th normalized feature met in the order of [all_features] is the k-th
    output of the scaler, whatever feature the metadata lists at k, while the
    matcher receives under that name the output at the feature's position in
    the metadata. *)
Theorem X14_model_vector_is_filled_by_a_running_counter
    (kmeans : KMeans) (scaler : Scaler) (model_info : list (string * list string))
    (synthetic_features : gmap string value) features_to_normalize
    (full : list Q) (cluster : Z) (normalized : gmap string Q) :
  dict_get "features_to normalize" model_info = Some features_to_normalize ->
  infer kmeans scaler model_info synthetic_features
  = Returns (full, cluster, normalized) ->
  exists values normalized_subset,
    for_all (fun f => v ← lookup_feature synthetic_features f; as_float v)
      features_to_normalize = Returns values /\
    transform scaler values = inr normalized_subset /\
    predict kmeans full = inr cluster /\
    length full = 12%nat /\
    forall i f, all_features !! i = Some f ->
      if str_in f features_to_normalize then
        full !! i
        = normalized_subset
            !! length (List.filter (fun g => str_in g features_to_normalize)
                         (take i all_features)) /\
        normalized !! f
        = normalized_subset !! default O (index_of f features_to_normalize)
      else
        exists v x, synthetic_features !! f = Some v /\ as_float v = Returns x /\
                    full !! i = Some x.
Proof.
  intros Hinfo Hrun. unfold infer in Hrun. rewrite Hinfo in Hrun.
  cbn [mbind outcome_bind] in Hrun.
  apply bind_Returns in Hrun as (values & Hvalues & Hrun).
  apply bind_Returns in Hrun as (ns & Hns & Hrun).
  apply bind_Returns in Hrun as (full' & Hfull & Hrun).
  apply bind_Returns in Hrun as (c & Hc & Hrun).
  apply bind_Returns in Hrun as (d & Hd & Hrun).
  injection Hrun as -> -> ->.
  destruct (assemble_slots _ _ _ _ _ _ Hfull) as [Hlen Hslots].
  exists values, ns. split; [exact Hvalues|].
  split; [by destruct (transform scaler values); [|injection Hns as ->]|].
  split; [by destruct (predict kmeans full); [|injection Hc as ->]|].
  split; [exact Hlen|].
  intros i f Hi. specialize (Hslots i f Hi).
  destruct (str_in f features_to_normalize) eqn:Hf; [|exact Hslots].
  split; [exact (proj2 Hslots)|].
  unfold normalized_dict in Hd.
  rewrite (fold_normalized_lookup _ _ _ _ _ f Hd). by rewrite Hf.
Qed.

(** X15. When the metadata lists the normalized features in the order in which
    [all_features] has them, the vector handed to the clustering model holds,
    at the position of each normalized feature, the very value that the
    matcher receives under that feature's name. *)
Theorem X15_model_and_matcher_agree_in_model_order
    (kmeans : KMeans) (scaler : Scaler) (model_info : list (string * list string))
    (synthetic_features : gmap string value) features_to_normalize
    (full : list Q) (cluster : Z) (normalized : gmap string Q) :
  dict_get "features_to normalize" model_info = Some features_to_normalize ->
  in_model_order features_to_normalize ->
  infer kmeans scaler model_info synthetic_features
  = Returns (full, cluster, normalized) ->
  forall i f, all_features !! i = Some f -> str_in f features_to_normalize = true ->
    exists x, full !! i = Some x /\ normalized !! f = Some x.
Proof.
  intros Hinfo Horder Hrun i f Hi Hf. unfold infer in Hrun. rewrite Hinfo in Hrun.
  cbn [mbind outcome_bind] in Hrun.
  apply bind_Returns in Hrun as (values & Hvalues & Hrun).
  apply bind_Returns in Hrun as (ns & Hns & Hrun).
  apply bind_Returns in Hrun as (full' & Hfull & Hrun).
  apply bind_Returns in Hrun as (c & Hc & Hrun).
  apply bind_Returns in Hrun as (d & Hd & Hrun).
  injection Hrun as -> -> ->.
  destruct (assemble_slots _ _ _ _ _ _ Hfull) as [_ Hslots].
  specialize (Hslots i f Hi). rewrite Hf in Hslots.
  destruct Hslots as [[x Hx] Hslot]. exists x. split; [exact Hx|].
  unfold normalized_dict in Hd.
  rewrite (fold_normalized_lookup _ _ _ _ _ f Hd), Hf.
  rewrite (in_model_order_index _ _ _ Horder Hi Hf).
  rewrite Hslot in Hx. exact Hx.
Qed.
End ModelVector.

Lemma X14_model_vector_witness :
  exists full cluster normalized (normalized_subset : list Q),
    Inference.infer (H := Fixtures.double) (Fixtures.nearest_centre Fixtures.centres)
      Samples.comparison_scaler Samples.comparison_order
      (Inference.generate_seismic_features (Fixtures.at_clock 1700000000000) 6 35 139)
    = Returns (full, cluster, normalized) /\
    length full = 12%nat /\
    full !! 3%nat = normalized_subset !! 1%nat /\
    normalized !! "cdi" = normalized_subset !! 5%nat /\
    normalized !! "depth" = normalized_subset !! 1%nat.
Proof.
  assert (exists full cluster normalized,
            Inference.infer (H := Fixtures.double)
              (Fixtures.nearest_centre Fixtures.centres)
              Samples.comparison_scaler Samples.comparison_order
              (Inference.generate_seismic_features (Fixtures.at_clock 1700000000000)
                 6 35 139)
            = Returns (full, cluster, normalized))
    as (full & cluster & normalized & Hrun).
  { vm_compute. eexists _, _, _. reflexivity. }
  destruct (X14_model_vector_is_filled_by_a_running_counter (H := Fixtures.double)
              _ _ Samples.comparison_order _ Inference.comparison_features _ _ _
              eq_refl Hrun)
    as (values & ns & _ & _ & _ & Hlen & Hslots).
  exists full, cluster, normalized, ns. split; [exact Hrun|]. split; [exact Hlen|].
  pose proof (Hslots 3%nat "cdi" eq_refl) as Hcdi.
  pose proof (Hslots 11%nat "depth" eq_refl) as Hdepth.
  split; [exact (proj1 Hcdi)|]. split; [exact (proj2 Hcdi) | exact (proj2 Hdepth)].
Defined.

Lemma X15_model_and_matcher_witness :
  exists full cluster normalized,
    Inference.infer (H := Fixtures.double) (Fixtures.nearest_centre Fixtures.centres)
      (Fixtures.standard_scaler [5; 3; 4; 600; 0; 0; 10]%Q [1; 1; 1; 100; 180; 90; 10]%Q)
      [("features_to normalize", Fixtures.features_to_normalize)]
      (Inference.generate_seismic_features (Fixtures.at_clock 1700000000000) 6 35 139)
    = Returns (full, cluster, normalized) /\
    exists x, full !! 3%nat = Some x /\ normalized !! "cdi" = Some x.
Proof.
  assert (exists full cluster normalized,
            Inference.infer (H := Fixtures.double)
              (Fixtures.nearest_centre Fixtures.centres)
              (Fixtures.standard_scaler [5; 3; 4; 600; 0; 0; 10]%Q
                 [1; 1; 1; 100; 180; 90; 10]%Q)
              [("features_to normalize", Fixtures.features_to_normalize)]
              (Inference.generate_seismic_features (Fixtures.at_clock 1700000000000)
                 6 35 139)
            = Returns (full, cluster, normalized))
    as (full & cluster & normalized & Hrun).
  { vm_compute. eexists _, _, _. reflexivity. }
  exists full, cluster, normalized. split; [exact Hrun|].
  exact (X15_model_and_matcher_agree_in_model_order (H := Fixtures.double)
           _ _ [("features_to normalize", Fixtures.features_to_normalize)] _
           Fixtures.features_to_normalize _ _ _ eq_refl eq_refl Hrun
           3%nat "cdi" eq_refl eq_refl).
Defined.
